(** * Galaxy-emission-plot: UV / IR flux reduction and Pearson correlation

    A shallow embedding of [Galaxy-emission-plot.py] (functions [corr_coeff],
    [data] and [plot]) and the properties of its reduction pipeline.

    The pipeline is modelled with idealised arithmetic: a numpy [float64] is
    either a finite real number or a non-finite value (nan, inf, -inf), and
    rounding, overflow and underflow are not modelled; the statements about it
    are those that do not depend on how an operation rounds.  [corr_coeff] is
    also modelled on the machine's numbers (module [Binary64]), where what
    rounding, overflow and underflow do to the coefficient is computed.
    Python exceptions are explicit results. *)

From Stdlib Require Import Floats String Reals Lra Lia Bool Arith List.
Import ListNotations.
Open Scope R_scope.

(** ** Python exceptions *)

Inductive exn : Type :=
| ZeroDivisionError
| IndexError
| ValueError
| OSError.

Inductive result (A : Type) : Type :=
| Ok (a : A)
| Raise (e : exn).

Arguments Ok {A} a.
Arguments Raise {A} e.

Definition bind {A B : Type} (c : result A) (k : A -> result B) : result B :=
  match c with
  | Ok a => k a
  | Raise e => Raise e
  end.

Notation "x <- c ;; k" := (bind c (fun x => k))
  (at level 61, c at next level, right associativity).

(** ** numpy float64, idealised

    A value is a finite real number or [NonFin], which stands for nan, inf
    and -inf alike (the sign of an infinity depends on the sign of a zero,
    which the reals do not have).  Only finiteness is tracked: an operation
    with a non-finite operand is non-finite.  IEEE arithmetic agrees on the
    operations used here except for a finite value divided by an infinity,
    which is 0; that arises only from an infinite entry of an input file.
    Operations that numpy answers with a RuntimeWarning and a nan or inf
    (division by 0.0, sqrt of a negative, log of a non-positive) give
    [NonFin]: they do not raise. *)

Inductive float64 : Type :=
| Fin (r : R)
| NonFin.

Definition lift2 (op : R -> R -> R) (a b : float64) : float64 :=
  match a, b with
  | Fin x, Fin y => Fin (op x y)
  | _, _ => NonFin
  end.

Definition fadd : float64 -> float64 -> float64 := lift2 Rplus.
Definition fsub : float64 -> float64 -> float64 := lift2 Rminus.
Definition fmul : float64 -> float64 -> float64 := lift2 Rmult.

Definition fdiv (a b : float64) : float64 :=
  match a, b with
  | Fin x, Fin y => if Req_dec_T y 0 then NonFin else Fin (x / y)
  | _, _ => NonFin
  end.

Definition fsqrt (a : float64) : float64 :=
  match a with
  | Fin x => if Rlt_dec x 0 then NonFin else Fin (sqrt x)
  | NonFin => NonFin
  end.

(** [np.log] *)
Definition flog (a : float64) : float64 :=
  match a with
  | Fin x => if Rlt_dec 0 x then Fin (ln x) else NonFin
  | NonFin => NonFin
  end.

(** [np.log10] *)
Definition flog10 (a : float64) : float64 :=
  match a with
  | Fin x => if Rlt_dec 0 x then Fin (ln x / ln 10) else NonFin
  | NonFin => NonFin
  end.

(** [a ** 2] on numpy values is [np.square]. *)
Definition fsquare (a : float64) : float64 := fmul a a.

(** ** One-dimensional numpy arrays *)

Definition array := list float64.

(** The builtin [sum]: starts at 0 and adds the elements from the left. *)
Definition py_sum (a : array) : float64 := fold_left fadd a (Fin 0).

(** [s / len(a)] where [s] is [sum(a)]: for an empty array both operands are
    Python ints and the division raises; otherwise it is a float64 division
    by a non-zero int. *)
Definition truediv_len (s : float64) (n : nat) : result float64 :=
  if Nat.eqb n 0 then Raise ZeroDivisionError else Ok (fdiv s (Fin (INR n))).

Fixpoint map2 {A B C : Type} (f : A -> B -> C) (l : list A) (l' : list B) : list C :=
  match l, l' with
  | a :: t, b :: t' => f a b :: map2 f t t'
  | _, _ => []
  end.

(** Element-wise binary operation of two 1-D arrays with numpy broadcasting:
    equal shapes pair up, a length-1 operand is stretched, anything else is
    a ValueError. *)
Definition broadcast (op : float64 -> float64 -> float64) (a b : array) : result array :=
  if Nat.eqb (length a) (length b) then Ok (map2 op a b)
  else if Nat.eqb (length a) 1 then Ok (map (op (hd NonFin a)) b)
  else if Nat.eqb (length b) 1 then Ok (map (fun x => op x (hd NonFin b)) a)
  else Raise ValueError.

(** array - scalar, scalar * array, array ** 2 *)
Definition np_sub_scalar (a : array) (m : float64) : array := map (fun x => fsub x m) a.
Definition np_scalar_mul (m : float64) (a : array) : array := map (fun x => fmul m x) a.
Definition np_mul_scalar (a : array) (m : float64) : array := map (fun x => fmul x m) a.
Definition np_square (a : array) : array := map fsquare a.
Definition np_sqrt (a : array) : array := map fsqrt a.
Definition np_log10 (a : array) : array := map flog10 a.
Definition np_mul : array -> array -> result array := broadcast fmul.
Definition np_div : array -> array -> result array := broadcast fdiv.

(** ** corr_coeff (lines 37-56) *)

Definition corr_coeff (xarr yarr : array) : result float64 :=
  xmean <- truediv_len (py_sum xarr) (length xarr) ;;
  ymean <- truediv_len (py_sum yarr) (length yarr) ;;
  prod <- np_mul (np_sub_scalar xarr xmean) (np_sub_scalar yarr ymean) ;;
  let top := py_sum prod in
  let bottom :=
    fsqrt (fmul (py_sum (np_square (np_sub_scalar xarr xmean)))
                (py_sum (np_square (np_sub_scalar yarr ymean)))) in
  Ok (fdiv top bottom).

(** ** Two-dimensional arrays and the input files *)

(** What [np.genfromtxt] hands back: a table with a single data row comes back
    as a 1-D array, otherwise as a 2-D array given by its rows. *)
Inductive ndarray : Type :=
| Arr1 (v : array)
| Arr2 (rows : list array).

(** The parsed content of every file name, or the exception reading it. *)
Definition files := string -> result ndarray.

(** [np.genfromtxt(name, dtype='float', delimiter=',', skip_header=1)] *)
Definition genfromtxt (fs : files) (name : string) : result ndarray := fs name.

(** Python list indexing [l[k]] for [k >= 0]. *)
Definition getitem {A : Type} (l : list A) (k : nat) : result A :=
  match nth_error l k with
  | Some a => Ok a
  | None => Raise IndexError
  end.

Fixpoint mapM {A B : Type} (f : A -> result B) (l : list A) : result (list B) :=
  match l with
  | [] => Ok []
  | a :: t => b <- f a ;; bs <- mapM f t ;; Ok (b :: bs)
  end.

(** [a[:, k]]: too many indices for a 1-D array, out of bounds when the rows
    are shorter. *)
Definition col (a : ndarray) (k : nat) : result array :=
  match a with
  | Arr1 _ => Raise IndexError
  | Arr2 rows => mapM (fun row => getitem row k) rows
  end.

Fixpoint set_nth {A : Type} (k : nat) (v : A) (l : list A) : list A :=
  match l, k with
  | [], _ => []
  | _ :: t, O => v :: t
  | a :: t, S k' => a :: set_nth k' v t
  end.

(** Writes [v] into column [k], row by row. *)
Definition set_col (a : ndarray) (k : nat) (v : array) : ndarray :=
  match a with
  | Arr1 w => Arr1 w
  | Arr2 rows => Arr2 (map2 (fun x row => set_nth k x row) v rows)
  end.

(** [a[:, k] -= v], in place.  The operand is always computed from a column
    of the same array, so the shapes agree; another length is a ValueError. *)
Definition isub_col (a : ndarray) (k : nat) (v : array) : result ndarray :=
  c <- col a k ;;
  if Nat.eqb (length c) (length v) then Ok (set_col a k (map2 fsub c v))
  else Raise ValueError.

(** [a[:, k] *= m], in place, for a scalar [m]. *)
Definition imul_col (a : ndarray) (k : nat) (m : float64) : result ndarray :=
  c <- col a k ;;
  Ok (set_col a k (np_mul_scalar c m)).

(** ** data (lines 58-84) *)

(** [(3.365*(10**(-5)))/(np.pi*5**2)] and [(10**6)/(4.25*10**10)] *)
Definition UV_calib : R := (3.365 * (/ 10 ^ 5)) / (PI * 5 ^ 2).
Definition IR_calib : R := (10 ^ 6) / (4.25 * 10 ^ 10).

(** [np.sqrt((perc_unc**2)+(c**2))] *)
Definition quadrature (perc_unc : array) (c : R) : array :=
  map (fun p => fsqrt (fadd (fsquare p) (Fin (c ^ 2)))) perc_unc.

(** The local variables of [data] when it returns; [data_arr] is the array
    [data] after all the in-place updates, and [data_bckg] a copy of it as it
    was after the background subtraction of lines 65-66 (the code keeps one
    array and no such copy; it is recorded to speak about that moment). *)
Record data_locals : Type := {
  data_arr : ndarray;
  data_bckg : ndarray;
  UV_bckg_mean : float64;
  IR_bckg_mean : float64;
  UV_unc_perpix : float64;
  IR_unc_perpix : float64;
  UV_perc_unc : array;
  IR_perc_unc : array;
  UV_uncertainty : array;
  IR_uncertainty : array;
  log_UV_unc : array;
  log_IR_unc : array
}.

Definition data_body (fs : files) (galaxy : string) : result data_locals :=
  data0 <- genfromtxt fs (galaxy ++ "_emission_npix.txt")%string ;;
  stdevs <- genfromtxt fs (galaxy ++ "_Stdev_mean.txt")%string ;;
  s0 <- col stdevs 0 ;;
  uv_bckg_mean <- truediv_len (py_sum s0) (length s0) ;;
  s2 <- col stdevs 2 ;;
  ir_bckg_mean <- truediv_len (py_sum s2) (length s2) ;;
  npix_uv <- col data0 3 ;;
  data1 <- isub_col data0 2 (np_scalar_mul uv_bckg_mean npix_uv) ;;
  npix_ir <- col data1 5 ;;
  data2 <- isub_col data1 4 (np_scalar_mul ir_bckg_mean npix_ir) ;;
  s1 <- col stdevs 1 ;;
  uv_std_mean <- truediv_len (py_sum s1) (length s1) ;;
  let uv_unc_perpix := fdiv uv_std_mean uv_bckg_mean in
  s3 <- col stdevs 3 ;;
  ir_std_mean <- truediv_len (py_sum s3) (length s3) ;;
  let ir_unc_perpix := fdiv ir_std_mean ir_bckg_mean in
  n3 <- col data2 3 ;;
  let uv_perc_unc := np_mul_scalar (np_sqrt n3) uv_unc_perpix in
  n5 <- col data2 5 ;;
  let ir_perc_unc := np_mul_scalar (np_sqrt n5) ir_unc_perpix in
  data3 <- imul_col data2 2 (Fin UV_calib) ;;
  let uv_uncertainty := quadrature uv_perc_unc 0.03 in
  data4 <- imul_col data3 4 (Fin IR_calib) ;;
  let ir_uncertainty := quadrature ir_perc_unc 0.04 in
  let log_uv_unc := np_scalar_mul (fdiv (Fin 1) (flog (Fin 10))) uv_uncertainty in
  let log_ir_unc := np_scalar_mul (fdiv (Fin 1) (flog (Fin 10))) ir_uncertainty in
  Ok {| data_arr := data4; data_bckg := data2;
        UV_bckg_mean := uv_bckg_mean; IR_bckg_mean := ir_bckg_mean;
        UV_unc_perpix := uv_unc_perpix; IR_unc_perpix := ir_unc_perpix;
        UV_perc_unc := uv_perc_unc; IR_perc_unc := ir_perc_unc;
        UV_uncertainty := uv_uncertainty; IR_uncertainty := ir_uncertainty;
        log_UV_unc := log_uv_unc; log_IR_unc := log_ir_unc |}.

(** [return [data[:,2], data[:,4], data[:,6], log_UV_unc, log_IR_unc]] *)
Definition data (fs : files) (galaxy : string) : result (list array) :=
  l <- data_body fs galaxy ;;
  c2 <- col (data_arr l) 2 ;;
  c4 <- col (data_arr l) 4 ;;
  c6 <- col (data_arr l) 6 ;;
  Ok [c2; c4; c6; log_UV_unc l; log_IR_unc l].

(** ** Text, plotting calls and console output *)

(** A Python string built from literals and [str] of a float; the digits
    [str] prints are not modelled. *)
Inductive piece : Type :=
| Lit (s : string)
| StrFloat (v : float64).

Definition pystr := list piece.

Inductive event : Type :=
| plt_plot (x y : array) (fmt : string) (label : option string)
| plt_title (t : string)
| plt_xlabel (t : string)
| plt_ylabel (t : string)
| plt_legend (labels : option (list pystr))
| plt_show
| print (t : pystr).

(** Code with effects: the result comes with the calls made, in order; they
    are kept when an exception ends the run.  A call of the plotting library
    is recorded and taken to return: matplotlib itself raises ValueError on a
    format string it cannot read (a colour such as 'q'), which is not
    modelled, so a run here that goes past such a call says nothing about the
    program. *)
Definition io (A : Type) : Type := (list event * result A)%type.

Definition io_ret {A : Type} (a : A) : io A := ([], Ok a).

Definition io_bind {A B : Type} (c : io A) (k : A -> io B) : io B :=
  match c with
  | (tr, Ok a) => let (tr', r) := k a in (tr ++ tr', r)
  | (tr, Raise e) => (tr, Raise e)
  end.

Definition lift {A : Type} (r : result A) : io A := ([], r).

Definition emit (e : event) : io unit := ([e], Ok tt).

Notation "x <~ c ;; k" := (io_bind c (fun x => k))
  (at level 61, c at next level, right associativity).
Notation "c ;;; k" := (io_bind c (fun _ => k))
  (at level 61, right associativity).

(** Truth value of the [colours] argument: [None] and an empty list are
    false. *)
Definition truthy (colours : option (list string)) : bool :=
  match colours with
  | Some (_ :: _) => true
  | _ => false
  end.

(** [colours[count]] *)
Definition colour_at (colours : option (list string)) (count : nat) : result string :=
  match colours with
  | Some l => getitem l count
  | None => Raise IndexError
  end.

(** ** plot (lines 87-152) *)

(** The first loop (lines 109-111): the pooled arrays and the title. *)
Fixpoint pool (fs : files) (galaxies : list string) (x y r : array) (title : string)
  : result (array * array * array * string) :=
  match galaxies with
  | [] => Ok (x, y, r, title)
  | i :: rest =>
      d0 <- data fs i ;; a0 <- getitem d0 0 ;;
      d1 <- data fs i ;; a1 <- getitem d1 1 ;;
      d2 <- data fs i ;; a2 <- getitem d2 2 ;;
      pool fs rest (x ++ a0) (y ++ a1) (r ++ a2) (title ++ "NGC " ++ i ++ "  ")%string
  end.

(** Lines 107-113: the title and the two coefficients, before [str]. *)
Definition plot_stats (fs : files) (galaxies : list string)
  : result (string * float64 * float64) :=
  p <- pool fs galaxies [] [] [] ""%string ;;
  let '(x, y, r, title) := p in
  c1 <- corr_coeff (np_log10 x) (np_log10 y) ;;
  q <- np_div y x ;;
  c2 <- corr_coeff r (np_log10 q) ;;
  Ok (title, c1, c2).

(** ['r = '+str(c)] *)
Definition r_text (c : float64) : pystr := [Lit "r = "; StrFloat c].

(** The loop of the first figure (lines 115-123). *)
Fixpoint scatter1 (fs : files) (colours : option (list string))
    (galaxies : list string) (count : nat) : io unit :=
  match galaxies with
  | [] => io_ret tt
  | i :: rest =>
      d0 <~ lift (data fs i) ;; x <~ lift (getitem d0 0) ;;
      d1 <~ lift (data fs i) ;; y <~ lift (getitem d1 1) ;;
      (if truthy colours then
         c <~ lift (colour_at colours count) ;;
         emit (plt_plot (np_log10 x) (np_log10 y) ("x" ++ c)%string (Some ("NGC " ++ i)%string))
       else
         emit (plt_plot (np_log10 x) (np_log10 y) "xk"%string None)) ;;;
      scatter1 fs colours rest (S count)
  end.

(** The loop of the second figure (lines 135-143). *)
Fixpoint scatter2 (fs : files) (colours : option (list string))
    (galaxies : list string) (count : nat) : io unit :=
  match galaxies with
  | [] => io_ret tt
  | i :: rest =>
      d2 <~ lift (data fs i) ;; x <~ lift (getitem d2 2) ;;
      d1 <~ lift (data fs i) ;; a1 <~ lift (getitem d1 1) ;;
      d0 <~ lift (data fs i) ;; a0 <~ lift (getitem d0 0) ;;
      y <~ lift (np_div a1 a0) ;;
      (if truthy colours then
         c <~ lift (colour_at colours count) ;;
         emit (plt_plot x (np_log10 y) ("x" ++ c)%string (Some ("NGC " ++ i)%string))
       else
         emit (plt_plot x (np_log10 y) "xk"%string None)) ;;;
      scatter2 fs colours rest (S count)
  end.

Definition plot (fs : files) (galaxies : list string) (colours : option (list string))
  : io unit :=
  s <~ lift (plot_stats fs galaxies) ;;
  let '(title, c1, c2) := s in
  let r1 := r_text c1 in
  let r2 := r_text c2 in
  scatter1 fs colours galaxies 0 ;;;
  emit (plt_title title) ;;;
  emit (plt_xlabel "log(UV flux density)") ;;;
  emit (plt_ylabel "log(IR flux density)") ;;;
  (if truthy colours then
     emit (plt_legend None) ;;; emit (print (Lit "First graph: " :: r1))
   else
     emit (plt_legend (Some [r1]))) ;;;
  emit plt_show ;;;
  scatter2 fs colours galaxies 0 ;;;
  emit (plt_title title) ;;;
  emit (plt_xlabel "galactocentric radius (arcsec)") ;;;
  emit (plt_ylabel "log(IR flux density/UV flux density)") ;;;
  (if truthy colours then
     emit (plt_legend None) ;;; emit (print (Lit "Second graph: " :: r2))
   else
     emit (plt_legend (Some [r1]))) ;;;
  emit plt_show.

(** ** The correlation coefficient as the specification words it *)

Fixpoint Rsum (l : list R) : R :=
  match l with
  | [] => 0
  | a :: t => a + Rsum t
  end.

(** The arithmetic mean. *)
Definition mean (l : list R) : R := Rsum l / INR (length l).

(** sum((x-xmean)*(y-ymean)) *)
Definition pearson_num (xs ys : list R) : R :=
  Rsum (map2 (fun x y => (x - mean xs) * (y - mean ys)) xs ys).

(** sum((x-xmean)^2) *)
Definition sum_sq_dev (xs : list R) : R :=
  Rsum (map (fun x => (x - mean xs) ^ 2) xs).

(** sqrt(sum((x-xmean)^2) * sum((y-ymean)^2)) *)
Definition pearson_den (xs ys : list R) : R :=
  sqrt (sum_sq_dev xs * sum_sq_dev ys).

(** The quotient of the two; it has no finite value when the denominator
    is zero. *)
Definition pearson (xs ys : list R) : float64 :=
  fdiv (Fin (pearson_num xs ys)) (Fin (pearson_den xs ys)).

(** ** The reduction, row by row *)

(** Entry [k] of a row, and column [k] of a table of rows. *)
Definition get (row : array) (k : nat) : float64 := nth k row NonFin.
Definition column (rows : list array) (k : nat) : array := map (fun row => get row k) rows.

(** [sum(t[:,k])/len(t[:,k])] for a non-empty table. *)
Definition col_mean (rows : list array) (k : nat) : float64 :=
  fdiv (py_sum (column rows k)) (Fin (INR (length rows))).

(** Entry [k] of the row has [m] times entry [kn] subtracted. *)
Definition sub_row (k kn : nat) (m : float64) (row : array) : array :=
  set_nth k (fsub (get row k) (fmul m (get row kn))) row.

(** Entry [k] of the row is multiplied by [c]. *)
Definition cal_row (k : nat) (c : float64) (row : array) : array :=
  set_nth k (fmul (get row k) c) row.

(** The emission table [rows] and the background table [srows] of a galaxy
    as [data] needs them: both two-dimensional, seven and four columns at
    least, and a background table that is not empty. *)
Definition wf_tables (fs : files) (galaxy : string) (rows srows : list array) : Prop :=
  fs (galaxy ++ "_emission_npix.txt")%string = Ok (Arr2 rows)
  /\ fs (galaxy ++ "_Stdev_mean.txt")%string = Ok (Arr2 srows)
  /\ Forall (fun row => (7 <= length row)%nat) rows
  /\ Forall (fun row => (4 <= length row)%nat) srows
  /\ srows <> [].

(** The locals of [data] in closed form, from the two tables. *)
Definition reduction (rows srows : list array) : data_locals :=
  let rows2 := map (sub_row 4 5 (col_mean srows 2)) (map (sub_row 2 3 (col_mean srows 0)) rows) in
  let rows4 := map (cal_row 4 (Fin IR_calib)) (map (cal_row 2 (Fin UV_calib)) rows2) in
  let uv_perpix := fdiv (col_mean srows 1) (col_mean srows 0) in
  let ir_perpix := fdiv (col_mean srows 3) (col_mean srows 2) in
  let uv_perc := np_mul_scalar (np_sqrt (column rows2 3)) uv_perpix in
  let ir_perc := np_mul_scalar (np_sqrt (column rows2 5)) ir_perpix in
  {| data_arr := Arr2 rows4; data_bckg := Arr2 rows2;
     UV_bckg_mean := col_mean srows 0; IR_bckg_mean := col_mean srows 2;
     UV_unc_perpix := uv_perpix; IR_unc_perpix := ir_perpix;
     UV_perc_unc := uv_perc; IR_perc_unc := ir_perc;
     UV_uncertainty := quadrature uv_perc 0.03;
     IR_uncertainty := quadrature ir_perc 0.04;
     log_UV_unc := np_scalar_mul (fdiv (Fin 1) (flog (Fin 10))) (quadrature uv_perc 0.03);
     log_IR_unc := np_scalar_mul (fdiv (Fin 1) (flog (Fin 10))) (quadrature ir_perc 0.04) |}.

(** ** The pooled data of a call of plot *)

(** The calibrated UV and IR flux densities and the radii of the regions of
    one galaxy, from its emission table [rows] and background table [srows]:
    elements 0, 1 and 2 of what [data] returns. *)
Definition uv_flux (t : list array * list array) : array :=
  let (rows, srows) := t in
  map (fun row => fmul (fsub (get row 2) (fmul (col_mean srows 0) (get row 3)))
                       (Fin UV_calib)) rows.

Definition ir_flux (t : list array * list array) : array :=
  let (rows, srows) := t in
  map (fun row => fmul (fsub (get row 4) (fmul (col_mean srows 2) (get row 5)))
                       (Fin IR_calib)) rows.

Definition radius (t : list array * list array) : array := column (fst t) 6.

(** The title after the first loop. *)
Definition title_of (galaxies : list string) : string :=
  fold_left (fun t i => (t ++ "NGC " ++ i ++ "  ")%string) galaxies ""%string.

(** The arguments of the [plt.legend] calls of a run, in order. *)
Fixpoint legends (tr : list event) : list (option (list pystr)) :=
  match tr with
  | [] => []
  | plt_legend l :: t => l :: legends t
  | _ :: t => legends t
  end.

(** ** Inputs that differ in the background standard deviations only *)

(** Two rows of the same length that agree outside the entries 1 and 3. *)
Definition row_variant (row row' : array) : Prop :=
  length row = length row'
  /\ forall k, k <> 1%nat -> k <> 3%nat -> nth_error row k = nth_error row' k.

(** Two readings of a background file that differ at most in columns 1
    and 3 of a two-dimensional table. *)
Definition stdev_variant (a b : result ndarray) : Prop :=
  match a, b with
  | Ok (Arr2 rows), Ok (Arr2 rows') => Forall2 row_variant rows rows'
  | _, _ => a = b
  end.

(** For each listed galaxy the emission file reads the same and the
    background file differs at most in the standard-deviation columns. *)
Definition stdev_variants (fs fs' : files) (galaxies : list string) : Prop :=
  forall g, In g galaxies ->
    fs (g ++ "_emission_npix.txt")%string = fs' (g ++ "_emission_npix.txt")%string
    /\ stdev_variant (fs (g ++ "_Stdev_mean.txt")%string) (fs' (g ++ "_Stdev_mean.txt")%string).

(** Two results of [data] with the same fluxes and radii (elements 0, 1
    and 2), or the same exception. *)
Definition data_agree (r r' : result (list array)) : Prop :=
  match r, r' with
  | Ok d, Ok d' =>
      exists a0 a1 a2 lu li lu' li',
        d = [a0; a1; a2; lu; li] /\ d' = [a0; a1; a2; lu'; li']
  | Raise e, Raise e' => e = e'
  | _, _ => False
  end.

(** ** A small input: galaxy 3938 with two regions

    Columns of the emission table: right ascension, declination, sum UV,
    npix UV, sum IR, npix IR, galactocentric radius; of the background
    table: mean UV, stdev UV, mean IR, stdev IR. *)

Definition emission_3938 : list array :=
  [map Fin [10; 20; 14; 4; 38; 9; 5];
   map Fin [11; 21; 24; 4; 48; 9; 50]].

Definition background_3938 : list array :=
  [map Fin [1; 0.5; 2; 0.5];
   map Fin [1; 0.5; 2; 0.5]].

(** The same background with other standard deviations. *)
Definition background_3938' : list array :=
  [map Fin [1; 0.7; 2; 0.9];
   map Fin [1; 0.2; 2; 0.1]].

Definition files_3938 : files :=
  fun name =>
    if String.eqb name "3938_emission_npix.txt" then Ok (Arr2 emission_3938)
    else if String.eqb name "3938_Stdev_mean.txt" then Ok (Arr2 background_3938)
    else Raise OSError.

Definition files_3938' : files :=
  fun name =>
    if String.eqb name "3938_Stdev_mean.txt" then Ok (Arr2 background_3938')
    else files_3938 name.

(** ** More inputs for galaxy 3938 *)

(** Two rows of one length that agree from entry 2 on: they differ at most
    in right ascension and declination. *)
Definition same_but_position (row row' : array) : Prop :=
  length row = length row'
  /\ forall k, (2 <= k)%nat -> nth_error row k = nth_error row' k.

(** The regions of galaxy 3938 at other positions in the sky. *)
Definition emission_3938_moved : list array :=
  [map Fin [110; 220; 14; 4; 38; 9; 5];
   map Fin [111; 221; 24; 4; 48; 9; 50]].

Definition files_3938_moved : files :=
  fun name =>
    if String.eqb name "3938_emission_npix.txt" then Ok (Arr2 emission_3938_moved)
    else files_3938 name.

(** An emission file with a single region: it reads as a 1-D array. *)
Definition files_3938_single : files :=
  fun name =>
    if String.eqb name "3938_emission_npix.txt"
    then Ok (Arr1 (map Fin [10; 20; 14; 4; 38; 9; 5]))
    else files_3938 name.





(** ** The calls of a run of plot *)

(** The format string and the label of scatter call number [count]. *)
Definition marker (colours : option (list string)) (count : nat) : string :=
  if truthy colours then
    ("x" ++ match colours with Some l => nth count l ""%string | None => ""%string end)%string
  else "xk"%string.

Definition label (colours : option (list string)) (i : string) : option string :=
  if truthy colours then Some ("NGC " ++ i)%string else None.

(** The [plt.plot] calls of the two loops when nothing raises, from the
    tables of the galaxies. *)
Fixpoint scatter1_calls (colours : option (list string)) (galaxies : list string)
    (tables : list (list array * list array)) (count : nat) : list event :=
  match galaxies, tables with
  | i :: rest, t :: ts =>
      plt_plot (np_log10 (uv_flux t)) (np_log10 (ir_flux t))
               (marker colours count) (label colours i)
      :: scatter1_calls colours rest ts (S count)
  | _, _ => []
  end.

Fixpoint scatter2_calls (colours : option (list string)) (galaxies : list string)
    (tables : list (list array * list array)) (count : nat) : list event :=
  match galaxies, tables with
  | i :: rest, t :: ts =>
      plt_plot (radius t) (np_log10 (map2 fdiv (ir_flux t) (uv_flux t)))
               (marker colours count) (label colours i)
      :: scatter2_calls colours rest ts (S count)
  | _, _ => []
  end.

(** The legend and console calls that close a figure. *)
Definition report (colours : option (list string)) (head : string) (shown printed : float64)
  : list event :=
  if truthy colours then [plt_legend None; print (Lit head :: r_text printed)]
  else [plt_legend (Some [r_text shown])].

(** The coordinates of the [plt.plot] calls of a run, in order. *)
Fixpoint plotted (tr : list event) : list (array * array) :=
  match tr with
  | [] => []
  | plt_plot x y _ _ :: t => (x, y) :: plotted t
  | _ :: t => plotted t
  end.

(** The calls before the first [plt.show], and those after it. *)
Fixpoint before_show (tr : list event) : list event :=
  match tr with
  | [] => []
  | plt_show :: _ => []
  | e :: t => e :: before_show t
  end.

Fixpoint after_show (tr : list event) : list event :=
  match tr with
  | [] => []
  | plt_show :: t => t
  | _ :: t => after_show t
  end.

(** The coefficients a run reports, in order: the one in a legend
    [plt.legend(['r = '+str(c)])] and the one in a printed line
    [print(head+'r = '+str(c))]. *)
Fixpoint reported (tr : list event) : list float64 :=
  match tr with
  | [] => []
  | plt_legend (Some [[Lit _; StrFloat c]]) :: t => c :: reported t
  | print [Lit _; Lit _; StrFloat c] :: t => c :: reported t
  | _ :: t => reported t
  end.

(** Enough colours for [n] galaxies from position [count] on, when colours
    are given. *)
Definition enough (colours : option (list string)) (count n : nat) : Prop :=
  truthy colours = true -> exists l, colours = Some l /\ (count + n <= length l)%nat.

(** The one-letter colours of matplotlib's format strings: 'x' followed by
    one of them is a marker with its colour, a format [plt.plot] accepts. *)
Definition base_colour (c : string) : Prop :=
  In c ["b"; "g"; "r"; "c"; "m"; "y"; "k"; "w"]%string.

(** All the x coordinates, and all the y coordinates, of a figure. *)
Definition xs_of (pts : list (array * array)) : array := concat (map fst pts).
Definition ys_of (pts : list (array * array)) : array := concat (map snd pts).

(** ** corr_coeff in binary64 arithmetic

    [corr_coeff] again, on IEEE 754 binary64 numbers with every operation
    rounded to nearest, as numpy computes +, -, *, / and sqrt on float64.  A
    decimal literal stands for the nearest binary64 number, as in Python. *)

Set Warnings "-inexact-float".

Module Binary64.

Local Open Scope float_scope.

Definition array := list float.

(** The builtin [sum]: starts at 0 and adds the elements from the left. *)
Definition py_sum (a : array) : float := fold_left PrimFloat.add a 0.

(** [len(a)] converted to float64 for the division. *)
Definition of_len (n : nat) : float := PrimFloat.of_uint63 (Uint63.of_Z (Z.of_nat n)).

(** [s / len(a)] where [s] is [sum(a)]: a ZeroDivisionError for an empty
    array, a float64 division otherwise. *)
Definition truediv_len (s : float) (n : nat) : result float :=
  if Nat.eqb n 0 then Raise ZeroDivisionError else Ok (s / of_len n).

Definition broadcast (op : float -> float -> float) (a b : array) : result array :=
  if Nat.eqb (length a) (length b) then Ok (map2 op a b)
  else if Nat.eqb (length a) 1 then Ok (map (op (hd nan a)) b)
  else if Nat.eqb (length b) 1 then Ok (map (fun x => op x (hd nan b)) a)
  else Raise ValueError.

Definition np_sub_scalar (a : array) (m : float) : array := map (fun x => x - m) a.
Definition np_square (a : array) : array := map (fun x => x * x) a.
Definition np_mul : array -> array -> result array := broadcast PrimFloat.mul.

(** Lines 52-56. *)
Definition corr_coeff (xarr yarr : array) : result float :=
  xmean <- truediv_len (py_sum xarr) (length xarr) ;;
  ymean <- truediv_len (py_sum yarr) (length yarr) ;;
  prod <- np_mul (np_sub_scalar xarr xmean) (np_sub_scalar yarr ymean) ;;
  let top := py_sum prod in
  let bottom :=
    PrimFloat.sqrt (py_sum (np_square (np_sub_scalar xarr xmean))
                    * py_sum (np_square (np_sub_scalar yarr ymean))) in
  Ok (top / bottom).

(** The definitional formula evaluated in binary64: the mean, the sum of the
    products of the deviations, and the square root of the product of the two
    sums of squared deviations, every sum taken from the left. *)
Definition mean (l : array) : float := py_sum l / of_len (length l).

Definition top (xs ys : array) : float :=
  py_sum (map2 (fun x y => (x - mean xs) * (y - mean ys)) xs ys).

Definition sum_sq_dev (xs : array) : float :=
  py_sum (map (fun x => (x - mean xs) * (x - mean xs)) xs).

Definition bottom (xs ys : array) : float :=
  PrimFloat.sqrt (sum_sq_dev xs * sum_sq_dev ys).

Definition pearson (xs ys : array) : float := top xs ys / bottom xs ys.




End Binary64.

(** * Properties *)

(** ** Arithmetic on float64 *)

Lemma fadd_comm (a b : float64) : fadd a b = fadd b a.
Proof. destruct a, b; simpl; try reflexivity. f_equal; lra. Qed.

Lemma fmul_comm (a b : float64) : fmul a b = fmul b a.
Proof. destruct a, b; simpl; try reflexivity. f_equal; lra. Qed.

Lemma fdiv_fin (x y : R) : y <> 0 -> fdiv (Fin x) (Fin y) = Fin (x / y).
Proof. intros Hy. simpl. destruct (Req_dec_T y 0); [contradiction | reflexivity]. Qed.

Lemma fdiv_zero (x : R) : fdiv (Fin x) (Fin 0) = NonFin.
Proof. simpl. destruct (Req_dec_T 0 0); [reflexivity | contradiction]. Qed.

Lemma fsqrt_fin (x : R) : 0 <= x -> fsqrt (Fin x) = Fin (sqrt x).
Proof. intros Hx. simpl. destruct (Rlt_dec x 0); [lra | reflexivity]. Qed.

Lemma flog10_fin (x : R) : 0 < x -> flog10 (Fin x) = Fin (ln x / ln 10).
Proof. intros Hx. simpl. destruct (Rlt_dec 0 x); [reflexivity | contradiction]. Qed.

Lemma ln_10_pos : 0 < ln 10.
Proof. rewrite <- ln_1. apply ln_increasing; lra. Qed.

Lemma inv_ln_10 : fdiv (Fin 1) (flog (Fin 10)) = Fin (1 / ln 10).
Proof.
  simpl. destruct (Rlt_dec 0 10); [| lra].
  apply fdiv_fin. pose proof ln_10_pos. lra.
Qed.

(** ** Sums of finite arrays *)

Lemma fold_fadd_fin (l : list R) (a : R) :
  fold_left fadd (map Fin l) (Fin a) = Fin (a + Rsum l).
Proof.
  revert a. induction l as [| x l IH]; intros a; simpl.
  - f_equal; lra.
  - rewrite IH. f_equal; lra.
Qed.

Lemma py_sum_fin (l : list R) : py_sum (map Fin l) = Fin (Rsum l).
Proof. unfold py_sum. rewrite fold_fadd_fin. f_equal; lra. Qed.

Lemma truediv_len_pos (s : float64) (n : nat) :
  (0 < n)%nat -> truediv_len s n = Ok (fdiv s (Fin (INR n))).
Proof. intros Hn. unfold truediv_len. destruct n; [lia | reflexivity]. Qed.

Lemma mean_fin (l : list R) :
  (0 < length l)%nat ->
  truediv_len (py_sum (map Fin l)) (length (map Fin l)) = Ok (Fin (mean l)).
Proof.
  intros Hl. rewrite length_map, truediv_len_pos by exact Hl.
  rewrite py_sum_fin, fdiv_fin; [reflexivity |].
  apply not_0_INR. lia.
Qed.

Lemma np_sub_scalar_fin (l : list R) (m : R) :
  np_sub_scalar (map Fin l) (Fin m) = map Fin (map (fun x => x - m) l).
Proof. unfold np_sub_scalar. rewrite !map_map. reflexivity. Qed.

Lemma np_square_fin (l : list R) :
  np_square (map Fin l) = map Fin (map (fun x => x * x) l).
Proof. unfold np_square. rewrite !map_map. reflexivity. Qed.

Lemma map2_map {A A' B B' C : Type} (f : A' -> B' -> C) (g : A -> A') (h : B -> B')
    (l : list A) (l' : list B) :
  map2 f (map g l) (map h l') = map2 (fun a b => f (g a) (h b)) l l'.
Proof.
  revert l'. induction l as [| a l IH]; intros [| b l']; simpl; try reflexivity.
  f_equal. apply IH.
Qed.

Lemma map_map2 {A B C D : Type} (f : A -> B -> C) (g : C -> D) (l : list A) (l' : list B) :
  map g (map2 f l l') = map2 (fun a b => g (f a b)) l l'.
Proof.
  revert l'. induction l as [| a l IH]; intros [| b l']; simpl; try reflexivity.
  f_equal. apply IH.
Qed.

Lemma map2_ext {A B C : Type} (f g : A -> B -> C) (l : list A) (l' : list B) :
  (forall a b, f a b = g a b) -> map2 f l l' = map2 g l l'.
Proof.
  intros H. revert l'. induction l as [| a l IH]; intros [| b l']; simpl; try reflexivity.
  rewrite H. f_equal. apply IH.
Qed.

Lemma map2_same {A C : Type} (f : A -> A -> C) (l : list A) :
  map2 f l l = map (fun a => f a a) l.
Proof. induction l as [| a l IH]; simpl; [reflexivity | f_equal; exact IH]. Qed.

Lemma map2_flip {A B C : Type} (f : A -> B -> C) (l : list A) (l' : list B) :
  map2 f l l' = map2 (fun b a => f a b) l' l.
Proof.
  revert l'. induction l as [| a l IH]; intros [| b l']; simpl; try reflexivity.
  f_equal. apply IH.
Qed.

Lemma np_mul_fin (a b : list R) :
  length a = length b ->
  np_mul (map Fin a) (map Fin b) = Ok (map Fin (map2 Rmult a b)).
Proof.
  intros H. unfold np_mul, broadcast. rewrite !length_map, H, Nat.eqb_refl.
  rewrite map2_map, map_map2. reflexivity.
Qed.

Lemma Rsum_ext {A : Type} (f g : A -> R) (l : list A) :
  (forall a, f a = g a) -> Rsum (map f l) = Rsum (map g l).
Proof. intros H. induction l as [| a l IH]; simpl; [reflexivity | rewrite H, IH; reflexivity]. Qed.

Lemma Rsum_pow2_nonneg (m : R) (l : list R) : 0 <= Rsum (map (fun x => (x - m) ^ 2) l).
Proof.
  induction l as [| a l IH]; simpl; [lra |].
  pose proof (pow2_ge_0 (a - m)). simpl in *. lra.
Qed.

Lemma sum_sq_dev_nonneg (xs : list R) : 0 <= sum_sq_dev xs.
Proof. apply Rsum_pow2_nonneg. Qed.

(** ** corr_coeff on finite arrays *)

Lemma top_fin (xs ys : list R) :
  length xs = length ys ->
  np_mul (np_sub_scalar (map Fin xs) (Fin (mean xs)))
         (np_sub_scalar (map Fin ys) (Fin (mean ys)))
  = Ok (map Fin (map2 (fun x y => (x - mean xs) * (y - mean ys)) xs ys)).
Proof.
  intros H. rewrite !np_sub_scalar_fin, np_mul_fin by (rewrite !length_map; exact H).
  rewrite map2_map. reflexivity.
Qed.

Lemma sq_dev_fin (xs : list R) :
  py_sum (np_square (np_sub_scalar (map Fin xs) (Fin (mean xs)))) = Fin (sum_sq_dev xs).
Proof.
  rewrite np_sub_scalar_fin, np_square_fin, py_sum_fin, map_map.
  unfold sum_sq_dev. f_equal. apply Rsum_ext. intros a. ring.
Qed.

Lemma corr_coeff_fin (xs ys : list R) :
  length xs = length ys -> (0 < length xs)%nat ->
  corr_coeff (map Fin xs) (map Fin ys) = Ok (pearson xs ys).
Proof.
  intros Hlen Hpos. unfold corr_coeff.
  rewrite (mean_fin xs) by exact Hpos.
  rewrite (mean_fin ys) by lia.
  cbn [bind]. rewrite top_fin by exact Hlen. cbn [bind].
  rewrite !sq_dev_fin, py_sum_fin. cbn [fmul lift2].
  rewrite fsqrt_fin.
  - reflexivity.
  - apply Rmult_le_pos; apply sum_sq_dev_nonneg.
Qed.

(** ** Symmetry *)

Lemma broadcast_comm (op : float64 -> float64 -> float64) (a b : array) :
  (forall x y, op x y = op y x) -> broadcast op a b = broadcast op b a.
Proof.
  intros Hop. unfold broadcast.
  rewrite (Nat.eqb_sym (length b) (length a)).
  destruct (Nat.eqb_spec (length a) (length b)) as [Heq | Hne].
  - f_equal. rewrite map2_flip. apply map2_ext. intros; apply Hop.
  - destruct (Nat.eqb_spec (length a) 1) as [Ha | Ha];
      destruct (Nat.eqb_spec (length b) 1) as [Hb | Hb]; try lia.
    + f_equal. apply map_ext. intros; apply Hop.
    + f_equal. apply map_ext. intros; apply Hop.
    + reflexivity.
Qed.

Lemma truediv_len_cases (s : float64) (n : nat) :
  (n = 0%nat /\ truediv_len s n = Raise ZeroDivisionError)
  \/ ((0 < n)%nat /\ truediv_len s n = Ok (fdiv s (Fin (INR n)))).
Proof. destruct n; [left | right]; split; try reflexivity; lia. Qed.

(** C8.  [corr_coeff] is symmetric in its two arguments: swapping the arrays
    gives the same result (the same value, or the same exception). *)
Theorem corr_coeff_symmetric (xarr yarr : array) :
  corr_coeff xarr yarr = corr_coeff yarr xarr.
Proof.
  unfold corr_coeff.
  destruct (truediv_len_cases (py_sum xarr) (length xarr)) as [[_ ->] | [_ ->]];
    destruct (truediv_len_cases (py_sum yarr) (length yarr)) as [[_ ->] | [_ ->]];
    cbn [bind]; try reflexivity.
  unfold np_mul. rewrite (broadcast_comm fmul _ _ fmul_comm).
  destruct (broadcast fmul _ _); cbn [bind]; [| reflexivity].
  rewrite (fmul_comm (py_sum (np_square (np_sub_scalar xarr _)))). reflexivity.
Qed.

Lemma length_pos_ne {A : Type} (l : list A) : l <> [] -> (0 < length l)%nat.
Proof. destruct l; [contradiction | simpl; lia]. Qed.

(** ** Columns and in-place updates *)

Lemma mapM_total {A B : Type} (f : A -> result B) (g : A -> B) (l : list A) :
  Forall (fun a => f a = Ok (g a)) l -> mapM f l = Ok (map g l).
Proof.
  induction 1 as [| a l Ha _ IH]; simpl; [reflexivity |].
  rewrite Ha, IH. reflexivity.
Qed.

Lemma getitem_get (row : array) (k : nat) :
  (k < length row)%nat -> getitem row k = Ok (get row k).
Proof.
  intros Hk. unfold getitem, get.
  destruct (nth_error row k) as [a |] eqn:E.
  - rewrite (nth_error_nth _ _ _ E). reflexivity.
  - apply nth_error_None in E. lia.
Qed.

Lemma col_Arr2 (rows : list array) (k : nat) :
  Forall (fun row => (k < length row)%nat) rows ->
  col (Arr2 rows) k = Ok (column rows k).
Proof.
  intros H. apply mapM_total. revert H. apply Forall_impl.
  intros row. apply getitem_get.
Qed.

Lemma column_length (rows : list array) (k : nat) : length (column rows k) = length rows.
Proof. apply length_map. Qed.

Lemma set_nth_length {A : Type} (k : nat) (v : A) (l : list A) :
  length (set_nth k v l) = length l.
Proof.
  revert k. induction l as [| a l IH]; intros [| k]; simpl; try reflexivity.
  f_equal. apply IH.
Qed.

Lemma get_set_nth_eq (k : nat) (v : float64) (row : array) :
  (k < length row)%nat -> get (set_nth k v row) k = v.
Proof.
  unfold get. revert k. induction row as [| a l IH]; intros [| k] H; simpl in *; try lia.
  - reflexivity.
  - apply IH. lia.
Qed.

Lemma get_set_nth_neq (k k' : nat) (v : float64) (row : array) :
  k <> k' -> get (set_nth k v row) k' = get row k'.
Proof.
  unfold get. revert k k'.
  induction row as [| a l IH]; intros [| k] [| k'] H; simpl; try reflexivity; try lia.
  apply IH. lia.
Qed.

Lemma map2_map_same {A B C : Type} (f : B -> A -> C) (g : A -> B) (l : list A) :
  map2 f (map g l) l = map (fun a => f (g a) a) l.
Proof. induction l as [| a l IH]; simpl; [reflexivity | f_equal; exact IH]. Qed.

Lemma isub_col_rows (rows : list array) (k : nat) (f : array -> float64) :
  Forall (fun row => (k < length row)%nat) rows ->
  isub_col (Arr2 rows) k (map f rows)
  = Ok (Arr2 (map (fun row => set_nth k (fsub (get row k) (f row)) row) rows)).
Proof.
  intros H. unfold isub_col. rewrite col_Arr2 by exact H. cbn [bind].
  rewrite column_length, length_map, Nat.eqb_refl.
  unfold set_col, column. rewrite map2_map, map2_same, map2_map_same. reflexivity.
Qed.

Lemma imul_col_rows (rows : list array) (k : nat) (m : float64) :
  Forall (fun row => (k < length row)%nat) rows ->
  imul_col (Arr2 rows) k m = Ok (Arr2 (map (cal_row k m) rows)).
Proof.
  intros H. unfold imul_col. rewrite col_Arr2 by exact H. cbn [bind].
  unfold set_col, np_mul_scalar, column. rewrite map_map, map2_map_same. reflexivity.
Qed.

Lemma Forall_width_map (n : nat) (g : array -> array) (rows : list array) :
  (forall row, length (g row) = length row) ->
  Forall (fun row => (n <= length row)%nat) rows ->
  Forall (fun row => (n <= length row)%nat) (map g rows).
Proof.
  intros Hg H. apply Forall_map. revert H. apply Forall_impl.
  intros row. rewrite Hg. exact (fun h => h).
Qed.

Lemma sub_row_length (k kn : nat) (m : float64) (row : array) :
  length (sub_row k kn m row) = length row.
Proof. apply set_nth_length. Qed.

Lemma cal_row_length (k : nat) (c : float64) (row : array) :
  length (cal_row k c row) = length row.
Proof. apply set_nth_length. Qed.

Lemma Forall_width_lt (n k : nat) (rows : list array) :
  (k < n)%nat ->
  Forall (fun row => (n <= length row)%nat) rows ->
  Forall (fun row => (k < length row)%nat) rows.
Proof. intros Hk. apply Forall_impl. intros row. lia. Qed.

Lemma col_mean_ok (srows : list array) (k : nat) :
  srows <> [] ->
  truediv_len (py_sum (column srows k)) (length (column srows k)) = Ok (col_mean srows k).
Proof.
  intros Hne. rewrite column_length, truediv_len_pos by (apply length_pos_ne; exact Hne).
  reflexivity.
Qed.

Lemma isub_col_sub_row (rows : list array) (k kn : nat) (m : float64) :
  Forall (fun row => (k < length row)%nat) rows ->
  isub_col (Arr2 rows) k (np_scalar_mul m (column rows kn))
  = Ok (Arr2 (map (sub_row k kn m) rows)).
Proof.
  intros H. unfold np_scalar_mul, column. rewrite map_map.
  rewrite isub_col_rows by exact H. reflexivity.
Qed.

(** ** Columns of the reduced array *)

Lemma column_map (g : array -> array) (rows : list array) (k : nat) :
  column (map g rows) k = map (fun row => get (g row) k) rows.
Proof. unfold column. apply map_map. Qed.

Lemma map_ext_Forall {A B : Type} (P : A -> Prop) (f g : A -> B) (l : list A) :
  (forall a, P a -> f a = g a) -> Forall P l -> map f l = map g l.
Proof.
  intros H HP. apply map_ext_in. intros a Ha.
  apply H. rewrite Forall_forall in HP. apply HP. exact Ha.
Qed.

Ltac get_simpl :=
  unfold cal_row, sub_row;
  repeat first
    [ rewrite get_set_nth_neq by lia
    | rewrite get_set_nth_eq by (rewrite ?set_nth_length; lia) ].

(** The columns of the array after the background subtraction. *)
Lemma bckg_columns (rows : list array) (mu mi : float64) :
  Forall (fun row => (7 <= length row)%nat) rows ->
  let rows2 := map (sub_row 4 5 mi) (map (sub_row 2 3 mu) rows) in
  column rows2 2 = map (fun row => fsub (get row 2) (fmul mu (get row 3))) rows
  /\ column rows2 4 = map (fun row => fsub (get row 4) (fmul mi (get row 5))) rows
  /\ forall k, k <> 2%nat -> k <> 4%nat -> column rows2 k = column rows k.
Proof.
  intros Hr rows2. subst rows2. rewrite map_map.
  split; [| split; [| intros k H2 H4]]; rewrite column_map;
    (apply (map_ext_Forall (fun row => (7 <= length row)%nat));
     [intros row Hrow; get_simpl; reflexivity | exact Hr]).
Qed.

(** The columns of the array [data] returns from. *)
Lemma calib_columns (rows2 : list array) (cu ci : float64) :
  Forall (fun row => (7 <= length row)%nat) rows2 ->
  let rows4 := map (cal_row 4 ci) (map (cal_row 2 cu) rows2) in
  column rows4 2 = np_mul_scalar (column rows2 2) cu
  /\ column rows4 4 = np_mul_scalar (column rows2 4) ci
  /\ forall k, k <> 2%nat -> k <> 4%nat -> column rows4 k = column rows2 k.
Proof.
  intros Hr rows4. subst rows4. rewrite map_map. unfold np_mul_scalar, column at 2 4.
  rewrite !map_map.
  split; [| split; [| intros k H2 H4]]; rewrite column_map;
    (apply (map_ext_Forall (fun row => (7 <= length row)%nat));
     [intros row Hrow; get_simpl; reflexivity | exact Hr]).
Qed.

Lemma wf_rows2 (rows : list array) (mu mi : float64) :
  Forall (fun row => (7 <= length row)%nat) rows ->
  Forall (fun row => (7 <= length row)%nat)
         (map (sub_row 4 5 mi) (map (sub_row 2 3 mu) rows)).
Proof.
  intros Hr. apply Forall_width_map; [apply sub_row_length |].
  apply Forall_width_map; [apply sub_row_length | exact Hr].
Qed.

Lemma UV_calib_value : UV_calib = 3.365e-5 / (PI * 5 ^ 2).
Proof. unfold UV_calib. pose proof PI_RGT_0. field. lra. Qed.

Lemma IR_calib_value : IR_calib = 1e6 / 4.25e10.
Proof. unfold IR_calib. lra. Qed.

(** ** data on well-formed tables *)

Section Reduction.

Variables (fs : files) (galaxy : string) (rows srows : list array).
Hypothesis Hwf : wf_tables fs galaxy rows srows.

Lemma data_body_wf :
  data_body fs galaxy = Ok (reduction rows srows).
Proof.
  pose proof Hwf as (He & Hs & Hr & Hsr & Hne).
  assert (Hs_lt : forall k, (k < 4)%nat -> Forall (fun row => (k < length row)%nat) srows).
  { intros k Hk. apply (Forall_width_lt 4); assumption. }
  pose proof (Forall_width_map 7 _ rows (sub_row_length 2 3 (col_mean srows 0)) Hr) as Hr1.
  pose proof (Forall_width_map 7 _ _ (sub_row_length 4 5 (col_mean srows 2)) Hr1) as Hr2.
  pose proof (Forall_width_map 7 _ _ (cal_row_length 2 (Fin UV_calib)) Hr2) as Hr3.
  assert (Hlt : forall k (l : list array), (k < 7)%nat ->
                       Forall (fun row => (7 <= length row)%nat) l ->
                       Forall (fun row => (k < length row)%nat) l).
  { intros k l Hk. apply Forall_width_lt. exact Hk. }
  unfold data_body, genfromtxt. rewrite He, Hs. cbn [bind].
  rewrite (col_Arr2 srows 0) by (apply Hs_lt; lia). cbn [bind].
  rewrite col_mean_ok by assumption. cbn [bind].
  rewrite (col_Arr2 srows 2) by (apply Hs_lt; lia). cbn [bind].
  rewrite col_mean_ok by assumption. cbn [bind].
  rewrite (col_Arr2 rows 3) by (apply Hlt; [lia | assumption]). cbn [bind].
  rewrite isub_col_sub_row by (apply Hlt; [lia | assumption]). cbn [bind].
  rewrite col_Arr2 by (apply Hlt; [lia | assumption]). cbn [bind].
  rewrite isub_col_sub_row by (apply Hlt; [lia | assumption]). cbn [bind].
  rewrite (col_Arr2 srows 1) by (apply Hs_lt; lia). cbn [bind].
  rewrite col_mean_ok by assumption. cbn [bind].
  rewrite (col_Arr2 srows 3) by (apply Hs_lt; lia). cbn [bind].
  rewrite col_mean_ok by assumption. cbn [bind].
  rewrite (col_Arr2 _ 3) by (apply Hlt; [lia | assumption]). cbn [bind].
  rewrite (col_Arr2 _ 5) by (apply Hlt; [lia | assumption]). cbn [bind].
  rewrite imul_col_rows by (apply Hlt; [lia | assumption]). cbn [bind].
  rewrite imul_col_rows by (apply Hlt; [lia | assumption]). cbn [bind].
  reflexivity.
Qed.

Lemma data_wf :
  data fs galaxy
  = Ok [column (match data_arr (reduction rows srows) with Arr2 r => r | Arr1 _ => [] end) 2;
        column (match data_arr (reduction rows srows) with Arr2 r => r | Arr1 _ => [] end) 4;
        column (match data_arr (reduction rows srows) with Arr2 r => r | Arr1 _ => [] end) 6;
        log_UV_unc (reduction rows srows);
        log_IR_unc (reduction rows srows)].
Proof.
  unfold data. rewrite data_body_wf. cbn [bind].
  pose proof Hwf as (_ & _ & Hr & _ & _).
  pose proof (Forall_width_map 7 _ rows (sub_row_length 2 3 (col_mean srows 0)) Hr) as Hr1.
  pose proof (Forall_width_map 7 _ _ (sub_row_length 4 5 (col_mean srows 2)) Hr1) as Hr2.
  pose proof (Forall_width_map 7 _ _ (cal_row_length 2 (Fin UV_calib)) Hr2) as Hr3.
  pose proof (Forall_width_map 7 _ _ (cal_row_length 4 (Fin IR_calib)) Hr3) as Hr4.
  cbn [data_arr reduction].
  rewrite !col_Arr2 by (apply (Forall_width_lt 7); [lia | exact Hr4]).
  reflexivity.
Qed.

(** What [data] returns on well-formed tables, from the raw rows. *)
Lemma data_returns :
  data fs galaxy
  = Ok [map (fun row => fmul (fsub (get row 2) (fmul (col_mean srows 0) (get row 3)))
                             (Fin UV_calib)) rows;
        map (fun row => fmul (fsub (get row 4) (fmul (col_mean srows 2) (get row 5)))
                             (Fin IR_calib)) rows;
        column rows 6;
        log_UV_unc (reduction rows srows);
        log_IR_unc (reduction rows srows)].
Proof.
  rewrite data_wf.
  pose proof Hwf as (_ & _ & Hr & _ & _).
  cbn [data_arr reduction].
  destruct (calib_columns _ (Fin UV_calib) (Fin IR_calib)
              (wf_rows2 rows (col_mean srows 0) (col_mean srows 2) Hr)) as (C2 & C4 & Ck).
  destruct (bckg_columns rows (col_mean srows 0) (col_mean srows 2) Hr) as (B2 & B4 & Bk).
  cbv zeta in C2, C4, Ck, B2, B4, Bk.
  rewrite C2, C4, (Ck 6%nat) by lia. rewrite B2, B4, (Bk 6%nat) by lia.
  unfold np_mul_scalar. rewrite !map_map. reflexivity.
Qed.

(** C3.  On well-formed tables [data] subtracts from each region's raw sum
    the mean background level times that region's pixel count: the mean of
    the background UV means (column 0) times the UV pixel count (column 3)
    from the UV sum (column 2), the mean of the background IR means
    (column 2) times the IR pixel count (column 5) from the IR sum
    (column 4); the calibration factor multiplies the difference. *)
Theorem data_subtracts_background :
  exists l uv ir rest,
    data_body fs galaxy = Ok l
    /\ UV_bckg_mean l = fdiv (py_sum (column srows 0)) (Fin (INR (length (column srows 0))))
    /\ IR_bckg_mean l = fdiv (py_sum (column srows 2)) (Fin (INR (length (column srows 2))))
    /\ col (data_bckg l) 2
       = Ok (map (fun row => fsub (get row 2) (fmul (UV_bckg_mean l) (get row 3))) rows)
    /\ col (data_bckg l) 4
       = Ok (map (fun row => fsub (get row 4) (fmul (IR_bckg_mean l) (get row 5))) rows)
    /\ data fs galaxy = Ok (uv :: ir :: rest)
    /\ uv = map (fun row => fmul (fsub (get row 2) (fmul (UV_bckg_mean l) (get row 3)))
                                 (Fin UV_calib)) rows
    /\ ir = map (fun row => fmul (fsub (get row 4) (fmul (IR_bckg_mean l) (get row 5)))
                                 (Fin IR_calib)) rows.
Proof.
  eexists (reduction rows srows), _, _, _.
  split; [exact data_body_wf |].
  rewrite data_returns.
  pose proof Hwf as (_ & _ & Hr & _ & _).
  destruct (bckg_columns rows (col_mean srows 0) (col_mean srows 2) Hr) as (B2 & B4 & _).
  cbv zeta in B2, B4.
  cbn [UV_bckg_mean IR_bckg_mean data_bckg reduction].
  rewrite !col_Arr2 by (apply (Forall_width_lt 7); [lia | apply wf_rows2; exact Hr]).
  rewrite B2, B4, !column_length.
  repeat split; reflexivity.
Qed.

(** C4.  On well-formed tables the background-subtracted UV values are
    multiplied by the constant 3.365e-5 / (pi * 5^2) and the IR values by the
    constant 1e6 / 4.25e10, and these products are what [data] returns; the
    two constants do not depend on the input. *)
Theorem data_calibrates :
  exists l b2 b4 rest,
    data_body fs galaxy = Ok l
    /\ col (data_bckg l) 2 = Ok b2
    /\ col (data_bckg l) 4 = Ok b4
    /\ col (data_arr l) 2 = Ok (np_mul_scalar b2 (Fin (3.365e-5 / (PI * 5 ^ 2))))
    /\ col (data_arr l) 4 = Ok (np_mul_scalar b4 (Fin (1e6 / 4.25e10)))
    /\ data fs galaxy
       = Ok (np_mul_scalar b2 (Fin (3.365e-5 / (PI * 5 ^ 2)))
             :: np_mul_scalar b4 (Fin (1e6 / 4.25e10)) :: rest).
Proof.
  eexists (reduction rows srows), _, _, _.
  split; [exact data_body_wf |].
  rewrite data_wf.
  pose proof Hwf as (_ & _ & Hr & _ & _).
  pose proof (wf_rows2 rows (col_mean srows 0) (col_mean srows 2) Hr) as Hr2.
  destruct (calib_columns _ (Fin UV_calib) (Fin IR_calib) Hr2) as (C2 & C4 & _).
  cbv zeta in C2, C4.
  cbn [data_bckg data_arr reduction].
  rewrite !(col_Arr2 (map (sub_row 4 5 _) _))
    by (apply (Forall_width_lt 7); [lia | exact Hr2]).
  rewrite !col_Arr2
    by (apply (Forall_width_lt 7); [lia |];
        apply Forall_width_map; [apply cal_row_length |];
        apply Forall_width_map; [apply cal_row_length | exact Hr2]).
  rewrite C2, C4, <- UV_calib_value, <- IR_calib_value.
  repeat split; reflexivity.
Qed.

(** C5.  On well-formed tables the fractional uncertainty of each region is
    sqrt(pixel count) times the per-pixel uncertainty (the mean background
    standard deviation divided by the mean background level), combined in
    quadrature with the fractional calibration uncertainty 0.03 for UV and
    0.04 for IR. *)
Theorem data_uncertainty :
  exists l,
    data_body fs galaxy = Ok l
    /\ UV_unc_perpix l = fdiv (col_mean srows 1) (col_mean srows 0)
    /\ IR_unc_perpix l = fdiv (col_mean srows 3) (col_mean srows 2)
    /\ UV_uncertainty l
       = map (fun row => fsqrt (fadd (fsquare (fmul (fsqrt (get row 3)) (UV_unc_perpix l)))
                                     (Fin (0.03 ^ 2)))) rows
    /\ IR_uncertainty l
       = map (fun row => fsqrt (fadd (fsquare (fmul (fsqrt (get row 5)) (IR_unc_perpix l)))
                                     (Fin (0.04 ^ 2)))) rows.
Proof.
  exists (reduction rows srows).
  split; [exact data_body_wf |].
  pose proof Hwf as (_ & _ & Hr & _ & _).
  destruct (bckg_columns rows (col_mean srows 0) (col_mean srows 2) Hr) as (_ & _ & Bk).
  cbv zeta in Bk.
  cbn [UV_unc_perpix IR_unc_perpix UV_uncertainty IR_uncertainty reduction].
  rewrite (Bk 3%nat), (Bk 5%nat) by lia.
  unfold quadrature, np_mul_scalar, np_sqrt, column. rewrite !map_map.
  repeat split; reflexivity.
Qed.

(** C6.  On well-formed tables the linear uncertainties of both bands are
    multiplied by 1/ln(10) to give the log-space uncertainties, and these are
    the last two of the five elements of the list [data] returns. *)
Theorem data_log_uncertainty :
  exists l uv ir radius,
    data_body fs galaxy = Ok l
    /\ log_UV_unc l = map (fun u => fmul (Fin (1 / ln 10)) u) (UV_uncertainty l)
    /\ log_IR_unc l = map (fun u => fmul (Fin (1 / ln 10)) u) (IR_uncertainty l)
    /\ data fs galaxy = Ok [uv; ir; radius; log_UV_unc l; log_IR_unc l].
Proof.
  eexists (reduction rows srows), _, _, _.
  split; [exact data_body_wf |].
  rewrite data_returns.
  cbn [log_UV_unc log_IR_unc UV_uncertainty IR_uncertainty reduction].
  rewrite inv_ln_10. unfold np_scalar_mul.
  repeat split; reflexivity.
Qed.

End Reduction.

(** The reduction on galaxy 3938. *)

Lemma wf_3938 : wf_tables files_3938 "3938" emission_3938 background_3938.
Proof.
  unfold wf_tables. repeat split; try reflexivity; try discriminate;
    repeat constructor; simpl; lia.
Qed.

Lemma data_subtracts_background_witness :
  exists l uv ir rest,
    data_body files_3938 "3938" = Ok l
    /\ UV_bckg_mean l
       = fdiv (py_sum (column background_3938 0))
              (Fin (INR (length (column background_3938 0))))
    /\ IR_bckg_mean l
       = fdiv (py_sum (column background_3938 2))
              (Fin (INR (length (column background_3938 2))))
    /\ col (data_bckg l) 2
       = Ok (map (fun row => fsub (get row 2) (fmul (UV_bckg_mean l) (get row 3)))
                 emission_3938)
    /\ col (data_bckg l) 4
       = Ok (map (fun row => fsub (get row 4) (fmul (IR_bckg_mean l) (get row 5)))
                 emission_3938)
    /\ data files_3938 "3938" = Ok (uv :: ir :: rest)
    /\ uv = map (fun row => fmul (fsub (get row 2) (fmul (UV_bckg_mean l) (get row 3)))
                                 (Fin UV_calib)) emission_3938
    /\ ir = map (fun row => fmul (fsub (get row 4) (fmul (IR_bckg_mean l) (get row 5)))
                                 (Fin IR_calib)) emission_3938.
Proof.
  apply (data_subtracts_background files_3938 "3938" emission_3938 background_3938).
  exact wf_3938.
Defined.

Lemma data_calibrates_witness :
  exists l b2 b4 rest,
    data_body files_3938 "3938" = Ok l
    /\ col (data_bckg l) 2 = Ok b2
    /\ col (data_bckg l) 4 = Ok b4
    /\ col (data_arr l) 2 = Ok (np_mul_scalar b2 (Fin (3.365e-5 / (PI * 5 ^ 2))))
    /\ col (data_arr l) 4 = Ok (np_mul_scalar b4 (Fin (1e6 / 4.25e10)))
    /\ data files_3938 "3938"
       = Ok (np_mul_scalar b2 (Fin (3.365e-5 / (PI * 5 ^ 2)))
             :: np_mul_scalar b4 (Fin (1e6 / 4.25e10)) :: rest).
Proof.
  apply (data_calibrates files_3938 "3938" emission_3938 background_3938).
  exact wf_3938.
Defined.

Lemma data_uncertainty_witness :
  exists l,
    data_body files_3938 "3938" = Ok l
    /\ UV_unc_perpix l = fdiv (col_mean background_3938 1) (col_mean background_3938 0)
    /\ IR_unc_perpix l = fdiv (col_mean background_3938 3) (col_mean background_3938 2)
    /\ UV_uncertainty l
       = map (fun row => fsqrt (fadd (fsquare (fmul (fsqrt (get row 3)) (UV_unc_perpix l)))
                                     (Fin (0.03 ^ 2)))) emission_3938
    /\ IR_uncertainty l
       = map (fun row => fsqrt (fadd (fsquare (fmul (fsqrt (get row 5)) (IR_unc_perpix l)))
                                     (Fin (0.04 ^ 2)))) emission_3938.
Proof.
  apply (data_uncertainty files_3938 "3938" emission_3938 background_3938).
  exact wf_3938.
Defined.

Lemma data_log_uncertainty_witness :
  exists l uv ir radius,
    data_body files_3938 "3938" = Ok l
    /\ log_UV_unc l = map (fun u => fmul (Fin (1 / ln 10)) u) (UV_uncertainty l)
    /\ log_IR_unc l = map (fun u => fmul (Fin (1 / ln 10)) u) (IR_uncertainty l)
    /\ data files_3938 "3938" = Ok [uv; ir; radius; log_UV_unc l; log_IR_unc l].
Proof.
  apply (data_log_uncertainty files_3938 "3938" emission_3938 background_3938).
  exact wf_3938.
Defined.

(** ** The pooled coefficients of plot *)

Lemma data_flux (fs : files) (galaxy : string) (t : list array * list array) :
  wf_tables fs galaxy (fst t) (snd t) ->
  exists lu li, data fs galaxy = Ok [uv_flux t; ir_flux t; radius t; lu; li].
Proof.
  destruct t as [rows srows]. intros Hwf. cbn [fst snd] in Hwf.
  rewrite (data_returns _ _ _ _ Hwf). eexists _, _. reflexivity.
Qed.

Lemma pool_wf (fs : files) (galaxies : list string) (tables : list (list array * list array)) :
  Forall2 (fun g t => wf_tables fs g (fst t) (snd t)) galaxies tables ->
  forall x y r title,
    pool fs galaxies x y r title
    = Ok (x ++ concat (map uv_flux tables),
          y ++ concat (map ir_flux tables),
          r ++ concat (map radius tables),
          fold_left (fun t i => (t ++ "NGC " ++ i ++ "  ")%string) galaxies title).
Proof.
  induction 1 as [| g t galaxies tables Hwf _ IH]; intros x y r title.
  - simpl. rewrite !app_nil_r. reflexivity.
  - destruct (data_flux fs g t Hwf) as (lu & li & Hd).
    cbn [pool]. rewrite Hd. cbn [bind getitem nth_error].
    rewrite IH. cbn [map concat fold_left]. rewrite <- !app_assoc. reflexivity.
Qed.

Lemma plot_stats_wf (fs : files) (galaxies : list string)
    (tables : list (list array * list array)) :
  Forall2 (fun g t => wf_tables fs g (fst t) (snd t)) galaxies tables ->
  plot_stats fs galaxies
  = (c1 <- corr_coeff (np_log10 (concat (map uv_flux tables)))
                      (np_log10 (concat (map ir_flux tables))) ;;
     q <- np_div (concat (map ir_flux tables)) (concat (map uv_flux tables)) ;;
     c2 <- corr_coeff (concat (map radius tables)) (np_log10 q) ;;
     Ok (title_of galaxies, c1, c2)).
Proof.
  intros H. unfold plot_stats. rewrite (pool_wf _ _ _ H). reflexivity.
Qed.

Lemma plot_prints (fs : files) (galaxies : list string) (colours : option (list string))
    (tr : list event) :
  truthy colours = true -> plot fs galaxies colours = (tr, Ok tt) ->
  exists title c1 c2,
    plot_stats fs galaxies = Ok (title, c1, c2)
    /\ In (print (Lit "First graph: " :: r_text c1)) tr
    /\ In (print (Lit "Second graph: " :: r_text c2)) tr.
Proof.
  intros Ht. unfold plot. rewrite Ht.
  destruct (plot_stats fs galaxies) as [[[title c1] c2] | e]; [| discriminate].
  cbn [lift io_bind emit]. 
  destruct (scatter1 fs colours galaxies 0) as [tr1 [[] | e1]]; [| discriminate].
  destruct (scatter2 fs colours galaxies 0) as [tr2 [[] | e2]]; [| discriminate].
  cbn [app]. intros H. injection H as <-.
  exists title, c1, c2. split; [reflexivity |].
  split; rewrite ?in_app_iff; simpl; rewrite ?in_app_iff; simpl; tauto.
Qed.

Lemma wf_tables_3938 :
  Forall2 (fun g t => wf_tables files_3938 g (fst t) (snd t))
          ["3938"%string] [(emission_3938, background_3938)].
Proof. constructor; [exact wf_3938 | constructor]. Qed.

(** ** Two regions: the coefficient is 1 or -1 *)

Lemma pearson_num_two (a1 a2 b1 b2 : R) :
  pearson_num [a1; a2] [b1; b2] = (a1 - a2) * (b1 - b2) / 2.
Proof. unfold pearson_num, mean. simpl. field. Qed.

Lemma pearson_den_two (a1 a2 b1 b2 : R) :
  pearson_den [a1; a2] [b1; b2] = Rabs ((a1 - a2) * (b1 - b2) / 2).
Proof.
  unfold pearson_den, sum_sq_dev, mean. simpl.
  rewrite <- sqrt_Rsqr_abs. f_equal. unfold Rsqr. field.
Qed.

Lemma corr_coeff_two_same (a1 a2 b1 b2 : R) :
  0 < (a1 - a2) * (b1 - b2) ->
  corr_coeff (map Fin [a1; a2]) (map Fin [b1; b2]) = Ok (Fin 1).
Proof.
  intros H. rewrite corr_coeff_fin by (simpl; lia).
  unfold pearson. rewrite pearson_num_two, pearson_den_two.
  set (t := (a1 - a2) * (b1 - b2)) in *.
  rewrite Rabs_right by lra. rewrite fdiv_fin by lra.
  do 2 f_equal. field. lra.
Qed.

Lemma corr_coeff_two_opposite (a1 a2 b1 b2 : R) :
  (a1 - a2) * (b1 - b2) < 0 ->
  corr_coeff (map Fin [a1; a2]) (map Fin [b1; b2]) = Ok (Fin (-1)).
Proof.
  intros H. rewrite corr_coeff_fin by (simpl; lia).
  unfold pearson. rewrite pearson_num_two, pearson_den_two.
  set (t := (a1 - a2) * (b1 - b2)) in *.
  rewrite Rabs_left by lra. rewrite fdiv_fin by lra.
  do 2 f_equal. field. lra.
Qed.

Lemma log10_lt (x y : R) : 0 < x -> x < y -> ln x / ln 10 < ln y / ln 10.
Proof.
  intros Hx Hxy. pose proof ln_10_pos. pose proof (ln_increasing x y Hx Hxy).
  apply Rmult_lt_compat_r; [apply Rinv_0_lt_compat; assumption | assumption].
Qed.

(** Two regions whose UV and IR fluxes both grow while the ratio IR/UV falls
    with the radius. *)
Lemma corr_two_regions (x1 x2 y1 y2 p1 p2 : R) :
  0 < x1 -> x1 < x2 -> 0 < y1 -> y1 < y2 -> y2 / x2 < y1 / x1 -> 0 < y2 / x2 -> p1 < p2 ->
  corr_coeff (np_log10 (map Fin [x1; x2])) (np_log10 (map Fin [y1; y2])) = Ok (Fin 1)
  /\ np_div (map Fin [y1; y2]) (map Fin [x1; x2]) = Ok (map Fin [y1 / x1; y2 / x2])
  /\ corr_coeff (map Fin [p1; p2]) (np_log10 (map Fin [y1 / x1; y2 / x2])) = Ok (Fin (-1)).
Proof.
  intros Hx1 Hx Hy1 Hy Hq Hq2 Hp.
  unfold np_log10. cbn [map].
  rewrite !flog10_fin by lra.
  split; [| split].
  - apply (corr_coeff_two_same (ln x1 / ln 10) (ln x2 / ln 10) (ln y1 / ln 10) (ln y2 / ln 10)).
    pose proof (log10_lt x1 x2 Hx1 Hx). pose proof (log10_lt y1 y2 Hy1 Hy). nra.
  - unfold np_div, broadcast. cbn [length map Nat.eqb map2].
    rewrite !fdiv_fin by lra. reflexivity.
  - apply (corr_coeff_two_opposite p1 p2 (ln (y1 / x1) / ln 10) (ln (y2 / x2) / ln 10)).
    pose proof (log10_lt _ _ Hq2 Hq). nra.
Qed.

(** ** The run on galaxy 3938 *)

Lemma UV_calib_pos : 0 < UV_calib.
Proof.
  unfold UV_calib. pose proof PI_RGT_0.
  apply Rdiv_lt_0_compat; [| nra].
  apply Rmult_lt_0_compat; [lra |]. apply Rinv_0_lt_compat. lra.
Qed.

Lemma IR_calib_pos : 0 < IR_calib.
Proof. unfold IR_calib. lra. Qed.

Lemma col_mean_3938_0 : col_mean background_3938 0 = Fin 1.
Proof.
  unfold col_mean, column, background_3938, py_sum.
  cbn [map get nth length fold_left fadd lift2].
  rewrite fdiv_fin; [f_equal |]; simpl; lra.
Qed.

Lemma col_mean_3938_2 : col_mean background_3938 2 = Fin 2.
Proof.
  unfold col_mean, column, background_3938, py_sum.
  cbn [map get nth length fold_left fadd lift2].
  rewrite fdiv_fin; [f_equal |]; simpl; lra.
Qed.

Lemma uv_flux_3938 :
  uv_flux (emission_3938, background_3938)
  = map Fin [(14 - 1 * 4) * UV_calib; (24 - 1 * 4) * UV_calib].
Proof.
  unfold uv_flux. rewrite col_mean_3938_0. reflexivity.
Qed.

Lemma ir_flux_3938 :
  ir_flux (emission_3938, background_3938)
  = map Fin [(38 - 2 * 9) * IR_calib; (48 - 2 * 9) * IR_calib].
Proof.
  unfold ir_flux. rewrite col_mean_3938_2. reflexivity.
Qed.

Lemma radius_3938 : radius (emission_3938, background_3938) = map Fin [5; 50].
Proof. reflexivity. Qed.

Lemma regions_3938 :
  let x1 := (14 - 1 * 4) * UV_calib in
  let x2 := (24 - 1 * 4) * UV_calib in
  let y1 := (38 - 2 * 9) * IR_calib in
  let y2 := (48 - 2 * 9) * IR_calib in
  corr_coeff (np_log10 (map Fin [x1; x2])) (np_log10 (map Fin [y1; y2])) = Ok (Fin 1)
  /\ np_div (map Fin [y1; y2]) (map Fin [x1; x2]) = Ok (map Fin [y1 / x1; y2 / x2])
  /\ corr_coeff (map Fin [5; 50]) (np_log10 (map Fin [y1 / x1; y2 / x2])) = Ok (Fin (-1)).
Proof.
  intros x1 x2 y1 y2.
  pose proof UV_calib_pos as Hu. pose proof IR_calib_pos as Hi.
  assert (Hq : 0 < IR_calib / UV_calib) by (apply Rdiv_lt_0_compat; assumption).
  assert (E1 : y1 / x1 = 2 * (IR_calib / UV_calib)) by (subst x1 y1; field; lra).
  assert (E2 : y2 / x2 = 3 / 2 * (IR_calib / UV_calib)) by (subst x2 y2; field; lra).
  apply corr_two_regions; subst x1 x2 y1 y2; try rewrite E1; try rewrite E2; lra.
Qed.

Lemma plot_stats_3938 :
  plot_stats files_3938 ["3938"%string] = Ok ("NGC 3938  "%string, Fin 1, Fin (-1)).
Proof.
  rewrite (plot_stats_wf _ _ _ wf_tables_3938).
  cbn [map concat]. rewrite !app_nil_r.
  rewrite uv_flux_3938, ir_flux_3938, radius_3938.
  destruct regions_3938 as (H1 & Hq & H2). cbv zeta in H1, Hq, H2.
  rewrite H1. cbn [bind]. rewrite Hq. cbn [bind]. rewrite H2. reflexivity.
Qed.

Lemma np_div_3938 :
  np_div (ir_flux (emission_3938, background_3938)) (uv_flux (emission_3938, background_3938))
  = Ok (map2 fdiv (ir_flux (emission_3938, background_3938))
                  (uv_flux (emission_3938, background_3938))).
Proof. reflexivity. Qed.

Ltac run_plot_3938 :=
  unfold plot; rewrite plot_stats_3938; cbn [lift io_bind];
  destruct (data_flux files_3938 "3938" (emission_3938, background_3938) wf_3938)
    as (lu & li & Hd);
  cbn [scatter1 scatter2]; rewrite Hd;
  cbn [lift io_bind getitem nth_error]; rewrite np_div_3938;
  reflexivity.

(** Without colours. *)
Lemma plot_3938_plain :
  let t := (emission_3938, background_3938) in
  plot files_3938 ["3938"%string] None
  = ([plt_plot (np_log10 (uv_flux t)) (np_log10 (ir_flux t)) "xk"%string None;
      plt_title "NGC 3938  "; plt_xlabel "log(UV flux density)";
      plt_ylabel "log(IR flux density)";
      plt_legend (Some [r_text (Fin 1)]);
      plt_show;
      plt_plot (radius t) (np_log10 (map2 fdiv (ir_flux t) (uv_flux t))) "xk"%string None;
      plt_title "NGC 3938  "; plt_xlabel "galactocentric radius (arcsec)";
      plt_ylabel "log(IR flux density/UV flux density)";
      plt_legend (Some [r_text (Fin 1)]);
      plt_show],
     Ok tt).
Proof. intros t. subst t. run_plot_3938. Qed.

(** With the colour red. *)
Lemma plot_3938_red :
  let t := (emission_3938, background_3938) in
  plot files_3938 ["3938"%string] (Some ["r"%string])
  = ([plt_plot (np_log10 (uv_flux t)) (np_log10 (ir_flux t)) "xr"%string
               (Some "NGC 3938"%string);
      plt_title "NGC 3938  "; plt_xlabel "log(UV flux density)";
      plt_ylabel "log(IR flux density)";
      plt_legend None; print (Lit "First graph: " :: r_text (Fin 1));
      plt_show;
      plt_plot (radius t) (np_log10 (map2 fdiv (ir_flux t) (uv_flux t))) "xr"%string
               (Some "NGC 3938"%string);
      plt_title "NGC 3938  "; plt_xlabel "galactocentric radius (arcsec)";
      plt_ylabel "log(IR flux density/UV flux density)";
      plt_legend None; print (Lit "Second graph: " :: r_text (Fin (-1)));
      plt_show],
     Ok tt).
Proof. intros t. subst t. run_plot_3938. Qed.

(** ** The legends of a run *)

Lemma legends_app (a b : list event) : legends (a ++ b) = legends a ++ legends b.
Proof.
  induction a as [| e a IH]; [reflexivity |].
  destruct e; cbn [app legends]; rewrite IH; reflexivity.
Qed.

Lemma io_bind_legends {A B : Type} (c : io A) (k : A -> io B) :
  legends (fst (io_bind c k))
  = legends (fst c)
    ++ match snd c with
       | Ok a => legends (fst (k a))
       | Raise _ => []
       end.
Proof.
  destruct c as [tr [a | e]]; cbn [io_bind fst snd].
  - destruct (k a) as [tr' r]. cbn [fst]. apply legends_app.
  - rewrite app_nil_r. reflexivity.
Qed.

Ltac legends_step :=
  rewrite io_bind_legends; cbn [lift emit io_ret fst snd legends app];
  try match goal with
      | |- context [match ?r with Ok _ => _ | Raise _ => _ end] =>
          destruct r; [| reflexivity]
      end.

Lemma scatter1_legends (fs : files) (colours : option (list string))
    (galaxies : list string) (count : nat) :
  legends (fst (scatter1 fs colours galaxies count)) = [].
Proof.
  revert count. induction galaxies as [| i rest IH]; intros count; [reflexivity |].
  cbn [scatter1]. do 4 legends_step.
  rewrite io_bind_legends. rewrite IH.
  destruct (truthy colours).
  - rewrite io_bind_legends. cbn [lift emit fst snd legends app].
    destruct (colour_at colours count); reflexivity.
  - reflexivity.
Qed.

Lemma scatter2_legends (fs : files) (colours : option (list string))
    (galaxies : list string) (count : nat) :
  legends (fst (scatter2 fs colours galaxies count)) = [].
Proof.
  revert count. induction galaxies as [| i rest IH]; intros count; [reflexivity |].
  cbn [scatter2]. do 7 legends_step.
  rewrite io_bind_legends. rewrite IH.
  destruct (truthy colours).
  - rewrite io_bind_legends. cbn [lift emit fst snd legends app].
    destruct (colour_at colours count); reflexivity.
  - reflexivity.
Qed.

Lemma plot_legends_plain (fs : files) (galaxies : list string)
    (colours : option (list string)) (tr : list event) :
  truthy colours = false -> plot fs galaxies colours = (tr, Ok tt) ->
  exists title c1 c2,
    plot_stats fs galaxies = Ok (title, c1, c2)
    /\ legends tr = [Some [r_text c1]; Some [r_text c1]].
Proof.
  intros Ht. unfold plot. rewrite Ht.
  destruct (plot_stats fs galaxies) as [[[title c1] c2] | e]; [| discriminate].
  cbn [lift io_bind emit].
  pose proof (scatter1_legends fs colours galaxies 0) as L1.
  pose proof (scatter2_legends fs colours galaxies 0) as L2.
  destruct (scatter1 fs colours galaxies 0) as [tr1 [[] | e1]]; [| discriminate].
  destruct (scatter2 fs colours galaxies 0) as [tr2 [[] | e2]]; [| discriminate].
  cbn [fst] in L1, L2. cbn [app]. intros H. injection H as <-.
  exists title, c1, c2. split; [reflexivity |].
  rewrite legends_app, L1. cbn [app legends].
  rewrite legends_app, L2. reflexivity.
Qed.

(** C2.  The run on galaxy 3938 without colours: the coefficient of the
    first plot is 1 and that of the second plot is -1, the run completes, and
    both legends carry the text of the first coefficient; the text of the
    second coefficient is a different one and appears in no legend. *)
Theorem second_legend_repeats_first :
  plot_stats files_3938 ["3938"%string] = Ok ("NGC 3938  "%string, Fin 1, Fin (-1))
  /\ snd (plot files_3938 ["3938"%string] None) = Ok tt
  /\ legends (fst (plot files_3938 ["3938"%string] None))
     = [Some [r_text (Fin 1)]; Some [r_text (Fin 1)]]
  /\ r_text (Fin (-1)) <> r_text (Fin 1).
Proof.
  split; [exact plot_stats_3938 |].
  pose proof plot_3938_plain as H. cbv zeta in H. rewrite H.
  split; [reflexivity |]. split; [reflexivity |].
  unfold r_text. intros E. injection E as E. lra.
Qed.

(** The report of the run with the colour red, for comparison: each
    coefficient is printed for its own plot. *)
Lemma prints_3938_red :
  In (print (Lit "First graph: " :: r_text (Fin 1)))
     (fst (plot files_3938 ["3938"%string] (Some ["r"%string])))
  /\ In (print (Lit "Second graph: " :: r_text (Fin (-1))))
        (fst (plot files_3938 ["3938"%string] (Some ["r"%string]))).
Proof.
  pose proof plot_3938_red as H. cbv zeta in H. rewrite H.
  cbn [fst]. split; simpl; tauto.
Qed.

(** ** Independence from the background standard deviations *)

Lemma col_variant_same (rows rows' : list array) (k : nat) :
  k <> 1%nat -> k <> 3%nat -> Forall2 row_variant rows rows' ->
  col (Arr2 rows) k = col (Arr2 rows') k.
Proof.
  intros H1 H3 H. cbn [col].
  induction H as [| row row' rows rows' [_ Hrow] _ IH]; [reflexivity |].
  cbn [mapM]. unfold getitem at 1 3. rewrite (Hrow k H1 H3), IH. reflexivity.
Qed.

Lemma getitem_variant (row row' : array) (k : nat) :
  row_variant row row' ->
  (exists a a', getitem row k = Ok a /\ getitem row' k = Ok a')
  \/ (getitem row k = Raise IndexError /\ getitem row' k = Raise IndexError).
Proof.
  intros [Hlen _]. unfold getitem.
  destruct (nth_error row k) as [a |] eqn:E, (nth_error row' k) as [a' |] eqn:E'.
  - left. eexists _, _. split; reflexivity.
  - apply nth_error_None in E'. assert (nth_error row k <> None) as Hk by congruence.
    apply nth_error_Some in Hk. lia.
  - apply nth_error_None in E. assert (nth_error row' k <> None) as Hk by congruence.
    apply nth_error_Some in Hk. lia.
  - right. split; reflexivity.
Qed.

(** A column of two variants: both out of bounds, or both of one length. *)
Lemma col_variant_shape (rows rows' : list array) (k : nat) :
  Forall2 row_variant rows rows' ->
  (exists c c', col (Arr2 rows) k = Ok c /\ col (Arr2 rows') k = Ok c'
                /\ length c = length c')
  \/ (col (Arr2 rows) k = Raise IndexError /\ col (Arr2 rows') k = Raise IndexError).
Proof.
  intros H. cbn [col].
  induction H as [| row row' rows rows' Hrow _ IH].
  - left. exists [], []. repeat split.
  - cbn [mapM].
    destruct (getitem_variant row row' k Hrow) as [(a & a' & -> & ->) | [-> ->]];
      cbn [bind]; [| right; split; reflexivity].
    destruct IH as [(c & c' & -> & -> & Hlen) | [-> ->]]; cbn [bind].
    + left. exists (a :: c), (a' :: c'). repeat split. simpl. congruence.
    + right. split; reflexivity.
Qed.

Lemma data_agree_refl (r : result (list array)) :
  (forall d, r = Ok d -> length d = 5%nat) -> data_agree r r.
Proof.
  intros H. destruct r as [d | e]; [| reflexivity].
  specialize (H d eq_refl).
  destruct d as [| a0 [| a1 [| a2 [| lu [| li [| ? ?]]]]]]; try discriminate.
  exists a0, a1, a2, lu, li, lu, li. split; reflexivity.
Qed.

Lemma data_length (fs : files) (galaxy : string) (d : list array) :
  data fs galaxy = Ok d -> length d = 5%nat.
Proof.
  unfold data. destruct (data_body fs galaxy) as [l |]; [| discriminate]. cbn [bind].
  destruct (col (data_arr l) 2); [| discriminate]. cbn [bind].
  destruct (col (data_arr l) 4); [| discriminate]. cbn [bind].
  destruct (col (data_arr l) 6); [| discriminate]. cbn [bind].
  intros H. injection H as <-. reflexivity.
Qed.

Ltac shared r := destruct r; cbn [bind]; [| exact eq_refl].

(** The next call is the same expression on both sides. *)
Ltac shared_head :=
  match goal with
  | |- data_agree (bind (bind ?r _) _) _ => shared r
  end.

Ltac shared_top :=
  match goal with
  | |- data_agree (bind ?r _) _ => shared r
  end.

Lemma data_variant (fs fs' : files) (g : string) :
  fs (g ++ "_emission_npix.txt")%string = fs' (g ++ "_emission_npix.txt")%string ->
  stdev_variant (fs (g ++ "_Stdev_mean.txt")%string) (fs' (g ++ "_Stdev_mean.txt")%string) ->
  data_agree (data fs g) (data fs' g).
Proof.
  intros He Hs.
  unfold stdev_variant in Hs.
  destruct (fs (g ++ "_Stdev_mean.txt")%string) as [[v | rows] | e] eqn:E1;
    destruct (fs' (g ++ "_Stdev_mean.txt")%string) as [[v' | rows'] | e'] eqn:E2;
    try discriminate;
    try (assert (Heq : data fs g = data fs' g)
           by (unfold data, data_body, genfromtxt; rewrite He, E1, E2, Hs; reflexivity);
         rewrite Heq; apply data_agree_refl; apply data_length).
  unfold data, data_body, genfromtxt. rewrite He, E1, E2.
  shared (fs' (g ++ "_emission_npix.txt")%string).
  rewrite (col_variant_same rows rows' 0), (col_variant_same rows rows' 2)
    by (lia || assumption).
  do 8 shared_head.
  destruct (col_variant_shape rows rows' 1 Hs) as [(c & c' & -> & -> & Hlen) | [-> ->]];
    cbn [bind]; [| exact eq_refl].
  rewrite Hlen. destruct (length c'); cbn [truediv_len Nat.eqb bind]; [exact eq_refl |].
  destruct (col_variant_shape rows rows' 3 Hs) as [(k & k' & -> & -> & Hlen') | [-> ->]];
    cbn [bind]; [| exact eq_refl].
  rewrite Hlen'. destruct (length k'); cbn [truediv_len Nat.eqb bind]; [exact eq_refl |].
  do 4 shared_head.
  cbn [data_arr log_UV_unc log_IR_unc].
  do 3 shared_top.
  eexists _, _, _, _, _, _, _. split; reflexivity.
Qed.

Ltac agree_step Hv i :=
  let H := fresh "H" in
  pose proof (Hv i (or_introl eq_refl)) as H;
  destruct H as [He Hs];
  pose proof (data_variant _ _ i He Hs) as H;
  unfold data_agree in H;
  match type of H with
  | match ?r with _ => _ end =>
      destruct r as [? | ?];
      match type of H with
      | match ?r' with _ => _ end => destruct r' as [? | ?]
      end
  end;
  try contradiction;
  [ destruct H as (? & ? & ? & ? & ? & ? & ? & -> & ->) | subst ].

Lemma pool_variant (fs fs' : files) (galaxies : list string) :
  stdev_variants fs fs' galaxies ->
  forall x y r title, pool fs galaxies x y r title = pool fs' galaxies x y r title.
Proof.
  induction galaxies as [| i rest IH]; intros Hv x y r title; [reflexivity |].
  cbn [pool]. agree_step Hv i; cbn [bind getitem nth_error]; [| reflexivity].
  apply IH. intros g Hg. apply Hv. right. exact Hg.
Qed.

Lemma scatter1_variant (fs fs' : files) (colours : option (list string))
    (galaxies : list string) :
  stdev_variants fs fs' galaxies ->
  forall count, scatter1 fs colours galaxies count = scatter1 fs' colours galaxies count.
Proof.
  induction galaxies as [| i rest IH]; intros Hv count; [reflexivity |].
  cbn [scatter1]. agree_step Hv i; cbn [lift io_bind getitem nth_error]; [| reflexivity].
  rewrite IH by (intros g Hg; apply Hv; right; exact Hg). reflexivity.
Qed.

Lemma scatter2_variant (fs fs' : files) (colours : option (list string))
    (galaxies : list string) :
  stdev_variants fs fs' galaxies ->
  forall count, scatter2 fs colours galaxies count = scatter2 fs' colours galaxies count.
Proof.
  induction galaxies as [| i rest IH]; intros Hv count; [reflexivity |].
  cbn [scatter2]. agree_step Hv i; cbn [lift io_bind getitem nth_error]; [| reflexivity].
  rewrite IH by (intros g Hg; apply Hv; right; exact Hg). reflexivity.
Qed.

Lemma plot_stats_variant (fs fs' : files) (galaxies : list string) :
  stdev_variants fs fs' galaxies -> plot_stats fs galaxies = plot_stats fs' galaxies.
Proof. intros Hv. unfold plot_stats. rewrite (pool_variant fs fs' galaxies Hv). reflexivity. Qed.

(** C10.  Two inputs that differ only in the standard-deviation columns (1
    and 3) of the background files give the same two correlation
    coefficients and the same run of [plot]: the same scatter points, titles,
    legends and printed lines, or the same exception at the same place. *)
Theorem plot_ignores_stdev (fs fs' : files) (galaxies : list string)
    (colours : option (list string)) :
  stdev_variants fs fs' galaxies ->
  plot_stats fs galaxies = plot_stats fs' galaxies
  /\ plot fs galaxies colours = plot fs' galaxies colours.
Proof.
  intros Hv. split; [apply plot_stats_variant; exact Hv |].
  unfold plot. rewrite (plot_stats_variant fs fs' galaxies Hv).
  rewrite (scatter1_variant fs fs' colours galaxies Hv).
  rewrite (scatter2_variant fs fs' colours galaxies Hv).
  reflexivity.
Qed.

Lemma row_variant_4 (a b c d b' d' : float64) : row_variant [a; b; c; d] [a; b'; c; d'].
Proof.
  split; [reflexivity |].
  intros [| [| [| [| k]]]] H1 H3; try reflexivity; contradiction.
Qed.

Lemma stdev_variants_3938 : stdev_variants files_3938 files_3938' ["3938"%string].
Proof.
  intros g [<- | []]. split; [reflexivity |].
  cbn. repeat constructor; apply row_variant_4.
Qed.

Lemma plot_ignores_stdev_witness :
  plot_stats files_3938 ["3938"%string] = plot_stats files_3938' ["3938"%string]
  /\ plot files_3938 ["3938"%string] None = plot files_3938' ["3938"%string] None.
Proof.
  apply (plot_ignores_stdev files_3938 files_3938' ["3938"%string] None).
  exact stdev_variants_3938.
Defined.

(** * Further properties of corr_coeff *)

(** ** The exceptions of corr_coeff *)

Lemma np_sub_scalar_length (a : array) (m : float64) :
  length (np_sub_scalar a m) = length a.
Proof. apply length_map. Qed.

Lemma truediv_len_nonempty (a : array) :
  a <> [] -> truediv_len (py_sum a) (length a) = Ok (fdiv (py_sum a) (Fin (INR (length a)))).
Proof. intros H. apply truediv_len_pos. apply length_pos_ne. exact H. Qed.

(** The three outcomes of a call. *)
Lemma corr_coeff_outcome (xarr yarr : array) :
  ((xarr = [] \/ yarr = []) /\ corr_coeff xarr yarr = Raise ZeroDivisionError)
  \/ (xarr <> [] /\ yarr <> []
      /\ (length xarr = length yarr \/ length xarr = 1%nat \/ length yarr = 1%nat)
      /\ exists v, corr_coeff xarr yarr = Ok v)
  \/ (xarr <> [] /\ yarr <> [] /\ length xarr <> length yarr
      /\ length xarr <> 1%nat /\ length yarr <> 1%nat
      /\ corr_coeff xarr yarr = Raise ValueError).
Proof.
  destruct xarr as [| x xs]; [left; split; [left |]; reflexivity |].
  destruct yarr as [| y ys]; [left; split; [right |]; reflexivity |].
  right. unfold corr_coeff.
  rewrite !truediv_len_nonempty by discriminate. cbn [bind].
  unfold np_mul, broadcast. rewrite !np_sub_scalar_length.
  destruct (Nat.eqb_spec (length (x :: xs)) (length (y :: ys))) as [E | E].
  { left. repeat split; try discriminate; [left; exact E | eexists; reflexivity]. }
  destruct (Nat.eqb_spec (length (x :: xs)) 1) as [E1 | E1].
  { left. repeat split; try discriminate; [right; left; exact E1 | eexists; reflexivity]. }
  destruct (Nat.eqb_spec (length (y :: ys)) 1) as [E2 | E2].
  { left. repeat split; try discriminate; [right; right; exact E2 | eexists; reflexivity]. }
  right. repeat split; try discriminate; assumption.
Qed.

(** X1.  [corr_coeff] raises ZeroDivisionError exactly when one of the
    arrays is empty, ValueError exactly when both are non-empty, of different
    lengths and neither has length 1 (no broadcasting), and returns a value
    in every other case. *)
Theorem corr_coeff_exceptions (xarr yarr : array) :
  (corr_coeff xarr yarr = Raise ZeroDivisionError <-> xarr = [] \/ yarr = [])
  /\ (corr_coeff xarr yarr = Raise ValueError
      <-> xarr <> [] /\ yarr <> [] /\ length xarr <> length yarr
          /\ length xarr <> 1%nat /\ length yarr <> 1%nat)
  /\ ((exists v, corr_coeff xarr yarr = Ok v)
      <-> xarr <> [] /\ yarr <> []
          /\ (length xarr = length yarr \/ length xarr = 1%nat \/ length yarr = 1%nat)).
Proof.
  destruct (corr_coeff_outcome xarr yarr)
    as [(He & ->) | [(Hx & Hy & Hc & (v & ->)) | (Hx & Hy & Hl & H1 & H2 & ->)]];
    (split; [| split]); split;
    try solve [ discriminate
              | tauto
              | intros [w Hw]; discriminate
              | intros _; exists v; reflexivity
              | intros [? | ?]; contradiction
              | intros (_ & _ & ? & ? & ?); destruct Hc as [? | [? | ?]]; contradiction ].
Qed.

(** ** An array with a single element *)

Lemma fdiv_nonfin_r (t : float64) : fdiv t NonFin = NonFin.
Proof. destruct t; reflexivity. Qed.

Lemma fdiv_fin_zero (t : float64) (z : R) : z = 0 -> fdiv t (Fin z) = NonFin.
Proof. intros ->. destruct t as [x |]; [apply fdiv_zero | reflexivity]. Qed.

Lemma bottom_degenerate_l (t sx sy : float64) :
  sx = Fin 0 \/ sx = NonFin -> fdiv t (fsqrt (fmul sx sy)) = NonFin.
Proof.
  intros [-> | ->]; [| apply fdiv_nonfin_r].
  destruct sy as [s |]; [| apply fdiv_nonfin_r].
  cbn [fmul lift2]. rewrite fsqrt_fin by lra.
  apply fdiv_fin_zero. rewrite Rmult_0_l. apply sqrt_0.
Qed.

Lemma bottom_degenerate_r (t sx sy : float64) :
  sy = Fin 0 \/ sy = NonFin -> fdiv t (fsqrt (fmul sx sy)) = NonFin.
Proof. intros H. rewrite fmul_comm. apply bottom_degenerate_l. exact H. Qed.

(** The sum of squared deviations of a single element is 0, or not finite
    when the element is not. *)
Lemma sq_dev_single (v : float64) :
  let m := fdiv (py_sum [v]) (Fin (INR (length [v]))) in
  py_sum (np_square (np_sub_scalar [v] m)) = Fin 0
  \/ py_sum (np_square (np_sub_scalar [v] m)) = NonFin.
Proof.
  destruct v as [a |]; [left | right; reflexivity].
  cbn [py_sum fold_left fadd lift2 length].
  rewrite fdiv_fin by (simpl; lra).
  cbn [np_sub_scalar np_square map fsub fsquare fmul lift2].
  unfold py_sum. cbn [fold_left fadd lift2].
  f_equal. simpl. field.
Qed.

Lemma broadcast_single_l (op : float64 -> float64 -> float64) (v : float64) (b : array) :
  exists p, broadcast op [v] b = Ok p.
Proof.
  unfold broadcast. cbn [length].
  destruct (Nat.eqb 1 (length b)); [eexists; reflexivity |].
  cbn [Nat.eqb]. eexists; reflexivity.
Qed.

Lemma corr_coeff_single_l (v : float64) (yarr : array) :
  yarr <> [] -> corr_coeff [v] yarr = Ok NonFin.
Proof.
  intros Hy. unfold corr_coeff.
  rewrite !truediv_len_nonempty by (discriminate || exact Hy). cbn [bind].
  unfold np_mul.
  destruct (broadcast_single_l fmul
              (fsub v (fdiv (py_sum [v]) (Fin (INR (length [v])))))
              (np_sub_scalar yarr (fdiv (py_sum yarr) (Fin (INR (length yarr))))))
    as [p Hp].
  change (np_sub_scalar [v] (fdiv (py_sum [v]) (Fin (INR (length [v])))))
    with [fsub v (fdiv (py_sum [v]) (Fin (INR (length [v]))))] at 1.
  rewrite Hp. cbn [bind]. f_equal.
  apply bottom_degenerate_l. apply sq_dev_single.
Qed.

Lemma corr_coeff_swap (xarr yarr : array) : corr_coeff xarr yarr = corr_coeff yarr xarr.
Proof.
  unfold corr_coeff.
  destruct (truediv_len_cases (py_sum xarr) (length xarr)) as [[_ ->] | [_ ->]];
    destruct (truediv_len_cases (py_sum yarr) (length yarr)) as [[_ ->] | [_ ->]];
    cbn [bind]; try reflexivity.
  unfold np_mul. rewrite (broadcast_comm fmul _ _ fmul_comm).
  destruct (broadcast fmul _ _); cbn [bind]; [| reflexivity].
  rewrite (fmul_comm (py_sum (np_square (np_sub_scalar xarr _)))). reflexivity.
Qed.

(** X6.  An array with a single element never gives a finite coefficient:
    against any non-empty array (of the same length, or longer and then
    paired by broadcasting) [corr_coeff] returns a non-finite value and does
    not raise, whichever argument the single element is. *)
Theorem corr_coeff_single (v : float64) (arr : array) :
  arr <> [] ->
  corr_coeff [v] arr = Ok NonFin /\ corr_coeff arr [v] = Ok NonFin.
Proof.
  intros H. split; [| rewrite corr_coeff_swap]; apply corr_coeff_single_l; exact H.
Qed.

Lemma corr_coeff_single_witness :
  corr_coeff [Fin 3] [Fin 1; Fin 2; NonFin] = Ok NonFin
  /\ corr_coeff [Fin 1; Fin 2; NonFin] [Fin 3] = Ok NonFin.
Proof. apply (corr_coeff_single (Fin 3) [Fin 1; Fin 2; NonFin]). discriminate. Defined.

(** * Further properties of data *)

(** ** What a successful call needs *)

Lemma mapM_Ok_inv {A B : Type} (f : A -> result B) (l : list A) (bs : list B) :
  mapM f l = Ok bs -> Forall2 (fun a b => f a = Ok b) l bs.
Proof.
  revert bs. induction l as [| a l IH]; intros bs H.
  - injection H as <-. constructor.
  - cbn [mapM] in H. destruct (f a) as [b |] eqn:Ea; [| discriminate].
    cbn [bind] in H. destruct (mapM f l) as [bs' |]; [| discriminate].
    cbn [bind] in H. injection H as <-. constructor; [exact Ea | apply IH; reflexivity].
Qed.

Lemma getitem_Ok_inv (row : array) (k : nat) (a : float64) :
  getitem row k = Ok a -> (k < length row)%nat /\ a = get row k.
Proof.
  unfold getitem, get. destruct (nth_error row k) as [b |] eqn:E; [| discriminate].
  intros H. injection H as <-. split.
  - apply nth_error_Some. congruence.
  - symmetry. apply nth_error_nth. exact E.
Qed.

Lemma col_Ok_inv (a : ndarray) (k : nat) (c : array) :
  col a k = Ok c ->
  exists rows, a = Arr2 rows /\ Forall (fun row => (k < length row)%nat) rows
               /\ c = column rows k.
Proof.
  destruct a as [v | rows]; [discriminate |]. cbn [col]. intros H.
  exists rows. split; [reflexivity |].
  apply mapM_Ok_inv in H. unfold column.
  induction H as [| row a rows c Hrow _ [IH1 IH2]]; [split; [constructor | reflexivity] |].
  apply getitem_Ok_inv in Hrow as [Hk ->].
  split; [constructor; assumption | cbn [map]; f_equal; exact IH2].
Qed.

Lemma length_map2 {A B C : Type} (f : A -> B -> C) (l : list A) (l' : list B) :
  length l = length l' -> length (map2 f l l') = length l'.
Proof.
  revert l'. induction l as [| a l IH]; intros [| b l'] H; simpl in *; try congruence.
  f_equal. apply IH. congruence.
Qed.

Lemma set_col_widths (rows : list array) (k : nat) (v : array) :
  length v = length rows ->
  map (@length float64) (map2 (fun x row => set_nth k x row) v rows)
  = map (@length float64) rows.
Proof.
  revert v. induction rows as [| row rows IH]; intros [| x v] H; simpl in *; try congruence.
  rewrite set_nth_length. f_equal. apply IH. congruence.
Qed.

(** The in-place updates keep the number of rows and their widths. *)
Lemma isub_col_widths (a a' : ndarray) (k : nat) (v : array) :
  isub_col a k v = Ok a' ->
  exists rows rows', a = Arr2 rows /\ a' = Arr2 rows'
                     /\ map (@length float64) rows' = map (@length float64) rows.
Proof.
  unfold isub_col. destruct (col a k) as [c |] eqn:Ec; [| discriminate]. cbn [bind].
  apply col_Ok_inv in Ec as (rows & -> & _ & ->).
  destruct (Nat.eqb_spec (length (column rows k)) (length v)) as [E |]; [| discriminate].
  intros H. injection H as <-. exists rows. eexists. split; [reflexivity |].
  split; [reflexivity |]. apply set_col_widths.
  rewrite length_map2 by exact E. rewrite <- E. apply column_length.
Qed.

Lemma imul_col_widths (a a' : ndarray) (k : nat) (m : float64) :
  imul_col a k m = Ok a' ->
  exists rows rows', a = Arr2 rows /\ a' = Arr2 rows'
                     /\ map (@length float64) rows' = map (@length float64) rows.
Proof.
  unfold imul_col. destruct (col a k) as [c |] eqn:Ec; [| discriminate]. cbn [bind].
  apply col_Ok_inv in Ec as (rows & -> & _ & ->).
  intros H. injection H as <-. exists rows. eexists. split; [reflexivity |].
  split; [reflexivity |]. apply set_col_widths.
  unfold np_mul_scalar. rewrite length_map. apply column_length.
Qed.

Lemma Forall_widths (n : nat) (rows rows' : list array) :
  map (@length float64) rows' = map (@length float64) rows ->
  Forall (fun row => (n < length row)%nat) rows' ->
  Forall (fun row => (n < length row)%nat) rows.
Proof.
  intros E H.
  apply (Forall_map (@length float64) (fun m => (n < m)%nat)).
  rewrite <- E. apply Forall_map. exact H.
Qed.

Lemma truediv_len_Ok_inv (s v : float64) (n : nat) :
  truediv_len s n = Ok v -> n <> 0%nat.
Proof. unfold truediv_len. destruct n; [discriminate | discriminate]. Qed.

Ltac inv_bind H :=
  cbv zeta in H;
  match type of H with
  | bind ?c _ = Ok _ =>
      let E := fresh "E" in
      destruct c eqn:E; [cbn [bind] in H | discriminate H]
  end.

Lemma data_Ok_wf (fs : files) (galaxy : string) (d : list array) :
  data fs galaxy = Ok d -> exists rows srows, wf_tables fs galaxy rows srows.
Proof.
  unfold data. intros H. inv_bind H.
  inv_bind H. inv_bind H. inv_bind H. clear H.
  rename E into Hbody, E2 into Hc6. unfold data_body, genfromtxt in Hbody.
  repeat inv_bind Hbody. injection Hbody as <-. cbn [data_arr] in *.
  apply col_Ok_inv in E13 as (srows & -> & Hs3 & _).
  apply col_Ok_inv in E3 as (srows0 & Heq & _ & ->). injection Heq as <-.
  apply truediv_len_Ok_inv in E4. rewrite column_length in E4.
  apply isub_col_widths in E8 as (rows & r1 & -> & -> & W1).
  apply isub_col_widths in E10 as (r1' & r2 & Heq & -> & W2). injection Heq as <-.
  apply imul_col_widths in E17 as (r2' & r3 & Heq & -> & W3). injection Heq as <-.
  apply imul_col_widths in E18 as (r3' & r4 & Heq & -> & W4). injection Heq as <-.
  apply col_Ok_inv in Hc6 as (r4' & Heq & H6 & _). injection Heq as <-.
  exists rows, srows. repeat split.
  - exact E.
  - exact E2.
  - assert (W : map (@length float64) r4 = map (@length float64) rows) by congruence.
    pose proof (Forall_widths 6 rows r4 W H6) as H6'.
    revert H6'. apply Forall_impl. intros row. lia.
  - revert Hs3. apply Forall_impl. intros row. lia.
  - intros ->. apply E4. reflexivity.
Qed.

(** X7.  [data] returns a result exactly when both files of the galaxy read
    as two-dimensional tables, every row of the emission table has at least
    seven columns, and the background table has at least one row and four
    columns; on any other input it raises. *)
Theorem data_succeeds_iff (fs : files) (galaxy : string) :
  (exists d, data fs galaxy = Ok d)
  <-> exists rows srows,
        fs (galaxy ++ "_emission_npix.txt")%string = Ok (Arr2 rows)
        /\ fs (galaxy ++ "_Stdev_mean.txt")%string = Ok (Arr2 srows)
        /\ Forall (fun row => (7 <= length row)%nat) rows
        /\ Forall (fun row => (4 <= length row)%nat) srows
        /\ srows <> [].
Proof.
  split.
  - intros [d Hd]. exact (data_Ok_wf fs galaxy d Hd).
  - intros (rows & srows & Hwf). eexists. apply (data_returns fs galaxy rows srows Hwf).
Qed.

(** ** The shape of the result *)

Lemma log_unc_lengths (rows srows : list array) :
  length (log_UV_unc (reduction rows srows)) = length rows
  /\ length (log_IR_unc (reduction rows srows)) = length rows.
Proof.
  cbn [log_UV_unc log_IR_unc reduction].
  unfold np_scalar_mul, quadrature, np_mul_scalar, np_sqrt, column.
  rewrite !length_map. split; reflexivity.
Qed.

(** X8.  A result of [data] is a list of five arrays with one entry per row
    (region) of the emission table, and the third array is column 6 of the
    file, the galactocentric radius, unchanged. *)
Theorem data_shape (fs : files) (galaxy : string) (d : list array) :
  data fs galaxy = Ok d ->
  exists rows uv ir rad lu li,
    fs (galaxy ++ "_emission_npix.txt")%string = Ok (Arr2 rows)
    /\ d = [uv; ir; rad; lu; li]
    /\ length uv = length rows /\ length ir = length rows /\ length rad = length rows
    /\ length lu = length rows /\ length li = length rows
    /\ rad = column rows 6.
Proof.
  intros Hd. destruct (data_Ok_wf fs galaxy d Hd) as (rows & srows & Hwf).
  rewrite (data_returns fs galaxy rows srows Hwf) in Hd. injection Hd as <-.
  destruct (log_unc_lengths rows srows) as [Lu Li].
  exists rows. eexists _, _, _, _, _.
  split; [exact (proj1 Hwf) |]. split; [reflexivity |].
  rewrite !length_map, column_length. repeat split; assumption.
Qed.

Lemma data_shape_witness :
  exists rows uv ir rad lu li,
    files_3938 "3938_emission_npix.txt"%string = Ok (Arr2 rows)
    /\ [uv_flux (emission_3938, background_3938); ir_flux (emission_3938, background_3938);
        column emission_3938 6;
        log_UV_unc (reduction emission_3938 background_3938);
        log_IR_unc (reduction emission_3938 background_3938)] = [uv; ir; rad; lu; li]
    /\ length uv = length rows /\ length ir = length rows /\ length rad = length rows
    /\ length lu = length rows /\ length li = length rows
    /\ rad = column rows 6.
Proof.
  apply (data_shape files_3938 "3938").
  exact (data_returns files_3938 "3938" emission_3938 background_3938 wf_3938).
Defined.

(** ** Right ascension and declination are not used *)

Lemma get_of_nth_error (row row' : array) (k : nat) :
  nth_error row k = nth_error row' k -> get row k = get row' k.
Proof.
  intros H. unfold get. rewrite <- !nth_default_eq. unfold nth_default. rewrite H.
  reflexivity.
Qed.

Lemma map_Forall2 {A B : Type} (R : A -> A -> Prop) (f : A -> B) (l l' : list A) :
  (forall a a', R a a' -> f a = f a') -> Forall2 R l l' -> map f l = map f l'.
Proof.
  intros Hf H. induction H as [| a a' l l' Ha _ IH]; [reflexivity |].
  cbn [map]. rewrite (Hf a a' Ha), IH. reflexivity.
Qed.

Lemma column_same_but_position (rows rows' : list array) (k : nat) :
  (2 <= k)%nat -> Forall2 same_but_position rows rows' -> column rows k = column rows' k.
Proof.
  intros Hk. unfold column. apply map_Forall2.
  intros row row' [_ H]. apply get_of_nth_error. apply H. exact Hk.
Qed.

Lemma log_unc_columns (rows srows : list array) :
  Forall (fun row => (7 <= length row)%nat) rows ->
  log_UV_unc (reduction rows srows)
  = np_scalar_mul (fdiv (Fin 1) (flog (Fin 10)))
      (quadrature (np_mul_scalar (np_sqrt (column rows 3))
                     (fdiv (col_mean srows 1) (col_mean srows 0))) 0.03)
  /\ log_IR_unc (reduction rows srows)
     = np_scalar_mul (fdiv (Fin 1) (flog (Fin 10)))
         (quadrature (np_mul_scalar (np_sqrt (column rows 5))
                        (fdiv (col_mean srows 3) (col_mean srows 2))) 0.04).
Proof.
  intros Hr.
  destruct (bckg_columns rows (col_mean srows 0) (col_mean srows 2) Hr) as (_ & _ & Bk).
  cbv zeta in Bk. cbn [log_UV_unc log_IR_unc reduction].
  rewrite (Bk 3%nat), (Bk 5%nat) by lia. split; reflexivity.
Qed.

(** What [data] returns, from the columns of the raw tables. *)
Lemma data_returns_columns (fs : files) (galaxy : string) (rows srows : list array) :
  wf_tables fs galaxy rows srows ->
  data fs galaxy
  = Ok [np_mul_scalar (map2 fsub (column rows 2) (np_scalar_mul (col_mean srows 0) (column rows 3)))
                      (Fin UV_calib);
        np_mul_scalar (map2 fsub (column rows 4) (np_scalar_mul (col_mean srows 2) (column rows 5)))
                      (Fin IR_calib);
        column rows 6;
        np_scalar_mul (fdiv (Fin 1) (flog (Fin 10)))
          (quadrature (np_mul_scalar (np_sqrt (column rows 3))
                         (fdiv (col_mean srows 1) (col_mean srows 0))) 0.03);
        np_scalar_mul (fdiv (Fin 1) (flog (Fin 10)))
          (quadrature (np_mul_scalar (np_sqrt (column rows 5))
                         (fdiv (col_mean srows 3) (col_mean srows 2))) 0.04)].
Proof.
  intros Hwf. rewrite (data_returns fs galaxy rows srows Hwf).
  destruct (log_unc_columns rows srows (proj1 (proj2 (proj2 Hwf)))) as [-> ->].
  unfold np_mul_scalar, np_scalar_mul, column.
  rewrite !map_map. rewrite !map2_map, !map2_same, !map_map. reflexivity.
Qed.

(** X10.  [data] does not use the right ascension and declination: two
    well-formed inputs with the same background table, whose emission rows
    agree from column 2 on, give the same result. *)
Theorem data_ignores_position (fs fs' : files) (galaxy : string)
    (rows rows' srows : list array) :
  wf_tables fs galaxy rows srows -> wf_tables fs' galaxy rows' srows ->
  Forall2 same_but_position rows rows' ->
  data fs galaxy = data fs' galaxy.
Proof.
  intros Hwf Hwf' H.
  rewrite (data_returns_columns fs galaxy rows srows Hwf).
  rewrite (data_returns_columns fs' galaxy rows' srows Hwf').
  rewrite !(column_same_but_position rows rows') by (lia || exact H).
  reflexivity.
Qed.

Lemma same_but_position_7 (a b a' b' c d e f g : float64) :
  same_but_position [a; b; c; d; e; f; g] [a'; b'; c; d; e; f; g].
Proof.
  split; [reflexivity |].
  intros [| [| k]] Hk; try lia. reflexivity.
Qed.

Lemma wf_3938_moved : wf_tables files_3938_moved "3938" emission_3938_moved background_3938.
Proof.
  unfold wf_tables. repeat split; try reflexivity; try discriminate;
    repeat constructor; simpl; lia.
Qed.

Lemma data_ignores_position_witness :
  data files_3938 "3938" = data files_3938_moved "3938".
Proof.
  apply (data_ignores_position files_3938 files_3938_moved "3938"
           emission_3938 emission_3938_moved background_3938).
  - exact wf_3938.
  - exact wf_3938_moved.
  - repeat constructor; apply same_but_position_7.
Defined.

(** ** Files with a single data row *)

Lemma col_Arr2_cases (rows : list array) (k : nat) :
  col (Arr2 rows) k = Ok (column rows k) \/ col (Arr2 rows) k = Raise IndexError.
Proof.
  cbn [col]. induction rows as [| row rows IH]; [left; reflexivity |].
  cbn [mapM]. destruct (getitem row k) as [a | e] eqn:E.
  - apply getitem_Ok_inv in E as [_ ->]. cbn [bind].
    destruct IH as [-> | ->]; cbn [bind]; [left | right]; reflexivity.
  - right. unfold getitem in E. destruct (nth_error row k); [discriminate |].
    injection E as <-. reflexivity.
Qed.

(** X11.  When one of the two files has a single data row, so that it
    reads as a one-dimensional array, [data] raises IndexError (the
    background table, if two-dimensional, being non-empty). *)
Theorem data_single_row (fs : files) (galaxy : string) (e s : ndarray) :
  fs (galaxy ++ "_emission_npix.txt")%string = Ok e ->
  fs (galaxy ++ "_Stdev_mean.txt")%string = Ok s ->
  (exists v, e = Arr1 v) \/ (exists v, s = Arr1 v) ->
  s <> Arr2 [] ->
  data fs galaxy = Raise IndexError.
Proof.
  intros He Hs H Hne. unfold data, data_body, genfromtxt. rewrite He, Hs. cbn [bind].
  destruct s as [w | srows]; [reflexivity |].
  destruct H as [[v ->] | [v Hv]]; [| discriminate].
  assert (Hs0 : srows <> []) by congruence.
  destruct (col_Arr2_cases srows 0) as [-> | ->]; [| reflexivity]. cbn [bind].
  rewrite col_mean_ok by exact Hs0. cbn [bind].
  destruct (col_Arr2_cases srows 2) as [-> | ->]; [| reflexivity]. cbn [bind].
  rewrite col_mean_ok by exact Hs0. cbn [bind].
  reflexivity.
Qed.

Lemma data_single_row_witness : data files_3938_single "3938" = Raise IndexError.
Proof.
  apply (data_single_row files_3938_single "3938"
           (Arr1 (map Fin [10; 20; 14; 4; 38; 9; 5])) (Arr2 background_3938)).
  - reflexivity.
  - reflexivity.
  - left. eexists. reflexivity.
  - discriminate.
Defined.

(** * Further properties of plot *)

(** ** Runs that draw nothing *)

(** X12.  Called with an empty list of galaxies, [plot] raises
    ZeroDivisionError (the mean of the empty pooled array) before any
    plotting call, whatever the files and the colours. *)
Theorem plot_no_galaxies (fs : files) (colours : option (list string)) :
  plot fs [] colours = ([], Raise ZeroDivisionError).
Proof. reflexivity. Qed.

Lemma pool_raises (fs : files) (galaxies : list string) (e : exn) :
  mapM (data fs) galaxies = Raise e ->
  forall x y r title, pool fs galaxies x y r title = Raise e.
Proof.
  induction galaxies as [| i rest IH]; intros H x y r title; [discriminate |].
  cbn [mapM pool] in *.
  destruct (data fs i) as [d |] eqn:Ed; cbn [bind] in *; [| congruence].
  destruct (data_Ok_wf fs i d Ed) as (rows & srows & Hwf).
  rewrite (data_returns fs i rows srows Hwf) in Ed. injection Ed as <-.
  cbn [getitem nth_error bind].
  apply IH. destruct (mapM (data fs) rest); [discriminate | exact H].
Qed.

(** X13.  When [data] raises for one of the listed galaxies (a missing or
    malformed file), [plot] raises the exception of the first such galaxy
    and makes no plotting call at all: nothing is drawn for the galaxies
    that load. *)
Theorem plot_data_failure (fs : files) (galaxies : list string)
    (colours : option (list string)) (e : exn) :
  mapM (data fs) galaxies = Raise e ->
  plot fs galaxies colours = ([], Raise e).
Proof.
  intros H. unfold plot, plot_stats. rewrite (pool_raises fs galaxies e H). reflexivity.
Qed.

Lemma plot_data_failure_witness :
  plot files_3938 ["3938"%string; "4321"%string] None = ([], Raise OSError).
Proof.
  apply (plot_data_failure files_3938 ["3938"%string; "4321"%string] None OSError).
  cbn [mapM]. rewrite (data_returns files_3938 "3938" emission_3938 background_3938 wf_3938).
  reflexivity.
Defined.

(** ** An empty list of colours *)

Lemma scatter1_no_colours (fs : files) (galaxies : list string) (count : nat) :
  scatter1 fs (Some []) galaxies count = scatter1 fs None galaxies count.
Proof.
  revert count. induction galaxies as [| i rest IH]; intros count; [reflexivity |].
  cbn [scatter1 truthy]. rewrite IH. reflexivity.
Qed.

Lemma scatter2_no_colours (fs : files) (galaxies : list string) (count : nat) :
  scatter2 fs (Some []) galaxies count = scatter2 fs None galaxies count.
Proof.
  revert count. induction galaxies as [| i rest IH]; intros count; [reflexivity |].
  cbn [scatter2 truthy]. rewrite IH. reflexivity.
Qed.

(** X14.  An empty list of colours counts as no colours: the run is the one
    with black markers and the coefficient in the legend, and no colour is
    ever looked up. *)
Theorem plot_empty_colours (fs : files) (galaxies : list string) :
  plot fs galaxies (Some []) = plot fs galaxies None.
Proof.
  unfold plot. cbn [truthy].
  rewrite scatter1_no_colours, scatter2_no_colours. reflexivity.
Qed.

(** ** Runs on well-formed tables *)

Lemma flux_lengths (t : list array * list array) :
  length (uv_flux t) = length (radius t) /\ length (ir_flux t) = length (radius t).
Proof.
  destruct t as [rows srows]. unfold uv_flux, ir_flux, radius, column. cbn [fst].
  rewrite !length_map. split; reflexivity.
Qed.

Lemma pooled_lengths (tables : list (list array * list array)) :
  length (concat (map uv_flux tables)) = length (concat (map radius tables))
  /\ length (concat (map ir_flux tables)) = length (concat (map radius tables)).
Proof.
  induction tables as [| t ts [IHu IHi]]; [split; reflexivity |].
  cbn [map concat]. rewrite !length_app, IHu, IHi.
  destruct (flux_lengths t) as [-> ->]. split; reflexivity.
Qed.

Lemma broadcast_same_length (op : float64 -> float64 -> float64) (a b : array) :
  length a = length b -> broadcast op a b = Ok (map2 op a b).
Proof. intros H. unfold broadcast. rewrite H, Nat.eqb_refl. reflexivity. Qed.

Lemma np_div_flux (t : list array * list array) :
  np_div (ir_flux t) (uv_flux t) = Ok (map2 fdiv (ir_flux t) (uv_flux t)).
Proof.
  apply broadcast_same_length. destruct (flux_lengths t) as [-> ->]. reflexivity.
Qed.

Lemma corr_coeff_same_length (a b : array) :
  a <> [] -> length a = length b -> exists v, corr_coeff a b = Ok v.
Proof.
  intros Ha Hlen.
  destruct (corr_coeff_outcome a b)
    as [([-> | ->] & _) | [(_ & _ & _ & Hv) | (_ & _ & Hne & _)]].
  - contradiction.
  - destruct a; [contradiction | discriminate].
  - exact Hv.
  - contradiction.
Qed.

(** The statistics on well-formed tables with at least one region. *)
Lemma plot_stats_Ok (fs : files) (galaxies : list string)
    (tables : list (list array * list array)) :
  Forall2 (fun g t => wf_tables fs g (fst t) (snd t)) galaxies tables ->
  concat (map radius tables) <> [] ->
  exists c1 c2,
    corr_coeff (np_log10 (concat (map uv_flux tables)))
               (np_log10 (concat (map ir_flux tables))) = Ok c1
    /\ corr_coeff (concat (map radius tables))
                  (np_log10 (map2 fdiv (concat (map ir_flux tables))
                                       (concat (map uv_flux tables)))) = Ok c2
    /\ plot_stats fs galaxies = Ok (title_of galaxies, c1, c2).
Proof.
  intros Hwf Hne. rewrite (plot_stats_wf fs galaxies tables Hwf).
  destruct (pooled_lengths tables) as [Lu Li].
  set (uv := concat (map uv_flux tables)) in *.
  set (ir := concat (map ir_flux tables)) in *.
  set (rad := concat (map radius tables)) in *.
  assert (Huv : np_log10 uv <> []).
  { intros E. apply (f_equal (@length float64)) in E. unfold np_log10 in E.
    rewrite length_map, Lu in E. destruct rad; [contradiction | discriminate]. }
  destruct (corr_coeff_same_length (np_log10 uv) (np_log10 ir) Huv) as [c1 H1].
  { unfold np_log10. rewrite !length_map. congruence. }
  destruct (corr_coeff_same_length rad (np_log10 (map2 fdiv ir uv)) Hne) as [c2 H2].
  { unfold np_log10. rewrite length_map, length_map2 by congruence. congruence. }
  exists c1, c2. split; [exact H1 |]. split; [exact H2 |].
  rewrite H1. cbn [bind].
  unfold np_div. rewrite broadcast_same_length by congruence. cbn [bind].
  rewrite H2. reflexivity.
Qed.

Lemma colour_at_Some (l : list string) (count : nat) :
  (count < length l)%nat -> colour_at (Some l) count = Ok (nth count l ""%string).
Proof.
  intros H. unfold colour_at, getitem.
  destruct (nth_error l count) as [c |] eqn:E.
  - rewrite (nth_error_nth _ _ _ E). reflexivity.
  - apply nth_error_None in E. lia.
Qed.

Lemma enough_step (colours : option (list string)) (count n : nat) :
  enough colours count (S n) -> enough colours (S count) n.
Proof.
  intros H Ht. destruct (H Ht) as (l & -> & Hl). exists l. split; [reflexivity | lia].
Qed.

Lemma io_bind_lift_Ok {A B : Type} (a : A) (k : A -> io B) :
  io_bind (lift (Ok a)) k = k a.
Proof. unfold io_bind, lift. destruct (k a). reflexivity. Qed.

Lemma scatter_call (colours : option (list string)) (count n : nat) (i : string)
    (x y : array) :
  enough colours count (S n) ->
  (if truthy colours then
     c <~ lift (colour_at colours count) ;;
     emit (plt_plot x y ("x" ++ c)%string (Some ("NGC " ++ i)%string))
   else emit (plt_plot x y "xk"%string None))
  = emit (plt_plot x y (marker colours count) (label colours i)).
Proof.
  intros H. unfold marker, label. destruct (truthy colours) eqn:Ht; [| reflexivity].
  destruct (H Ht) as (l & -> & Hl).
  rewrite colour_at_Some by lia. reflexivity.
Qed.

Lemma scatter1_wf (fs : files) (colours : option (list string)) (galaxies : list string)
    (tables : list (list array * list array)) :
  Forall2 (fun g t => wf_tables fs g (fst t) (snd t)) galaxies tables ->
  forall count, enough colours count (length galaxies) ->
  scatter1 fs colours galaxies count = (scatter1_calls colours galaxies tables count, Ok tt).
Proof.
  induction 1 as [| i t galaxies tables Hwf _ IH]; intros count Hc; [reflexivity |].
  destruct (data_flux fs i t Hwf) as (lu & li & Hd).
  cbn [scatter1 scatter1_calls]. rewrite Hd.
  rewrite IH by (apply enough_step; exact Hc).
  repeat (rewrite io_bind_lift_Ok; cbn [getitem nth_error]).
  rewrite (scatter_call colours count (length galaxies)) by exact Hc.
  reflexivity.
Qed.

Lemma scatter2_wf (fs : files) (colours : option (list string)) (galaxies : list string)
    (tables : list (list array * list array)) :
  Forall2 (fun g t => wf_tables fs g (fst t) (snd t)) galaxies tables ->
  forall count, enough colours count (length galaxies) ->
  scatter2 fs colours galaxies count = (scatter2_calls colours galaxies tables count, Ok tt).
Proof.
  induction 1 as [| i t galaxies tables Hwf _ IH]; intros count Hc; [reflexivity |].
  destruct (data_flux fs i t Hwf) as (lu & li & Hd).
  cbn [scatter2 scatter2_calls]. rewrite Hd.
  rewrite IH by (apply enough_step; exact Hc).
  repeat (rewrite io_bind_lift_Ok; cbn [getitem nth_error]).
  rewrite np_div_flux, io_bind_lift_Ok.
  rewrite (scatter_call colours count (length galaxies)) by exact Hc.
  reflexivity.
Qed.

Lemma plot_run (fs : files) (galaxies : list string) (colours : option (list string))
    (title : string) (c1 c2 : float64) (tr1 tr2 : list event) :
  plot_stats fs galaxies = Ok (title, c1, c2) ->
  scatter1 fs colours galaxies 0 = (tr1, Ok tt) ->
  scatter2 fs colours galaxies 0 = (tr2, Ok tt) ->
  plot fs galaxies colours
  = (tr1
     ++ [plt_title title; plt_xlabel "log(UV flux density)";
         plt_ylabel "log(IR flux density)"]
     ++ report colours "First graph: " c1 c1
     ++ [plt_show]
     ++ tr2
     ++ [plt_title title; plt_xlabel "galactocentric radius (arcsec)";
         plt_ylabel "log(IR flux density/UV flux density)"]
     ++ report colours "Second graph: " c1 c2
     ++ [plt_show],
     Ok tt).
Proof.
  intros Hs H1 H2. unfold plot, report. rewrite Hs, H1, H2.
  destruct (truthy colours); cbn [lift io_bind emit app];
    repeat rewrite <- app_assoc; reflexivity.
Qed.

Lemma radius_3938_nonempty :
  concat (map radius [(emission_3938, background_3938)]) <> [].
Proof. discriminate. Qed.

(** ** Fewer colours than galaxies *)

Lemma colour_at_out (l : list string) (count : nat) :
  (length l <= count)%nat -> colour_at (Some l) count = Raise IndexError.
Proof.
  intros H. unfold colour_at, getitem.
  destruct (nth_error l count) as [c |] eqn:E; [| reflexivity].
  assert (nth_error l count <> None) as Hn by congruence.
  apply nth_error_Some in Hn. lia.
Qed.

Lemma truthy_Some (l : list string) : l <> [] -> truthy (Some l) = true.
Proof. destruct l; [contradiction | reflexivity]. Qed.

Lemma scatter1_short (fs : files) (l : list string) (galaxies : list string)
    (tables : list (list array * list array)) :
  l <> [] ->
  Forall2 (fun g t => wf_tables fs g (fst t) (snd t)) galaxies tables ->
  forall count, (count <= length l)%nat -> (length l < count + length galaxies)%nat ->
  scatter1 fs (Some l) galaxies count
  = (scatter1_calls (Some l) (firstn (length l - count) galaxies)
                    (firstn (length l - count) tables) count,
     Raise IndexError).
Proof.
  intros Hl. induction 1 as [| i t galaxies tables Hwf _ IH]; intros count Hle Hlt.
  - simpl in Hlt. lia.
  - destruct (data_flux fs i t Hwf) as (lu & li & Hd).
    cbn [scatter1]. rewrite Hd.
    repeat (rewrite io_bind_lift_Ok; cbn [getitem nth_error]).
    rewrite (truthy_Some l Hl).
    destruct (Nat.eq_dec count (length l)) as [-> | Hne].
    + rewrite colour_at_out by lia. rewrite Nat.sub_diag. reflexivity.
    + rewrite colour_at_Some by lia. rewrite io_bind_lift_Ok.
      cbn [length] in Hlt.
      rewrite (IH (S count)) by lia.
      replace (length l - count)%nat with (S (length l - S count)) by lia.
      cbn [firstn scatter1_calls]. unfold marker, label. rewrite (truthy_Some l Hl).
      reflexivity.
Qed.

Lemma wf_tables_3938_twice :
  Forall2 (fun g t => wf_tables files_3938 g (fst t) (snd t))
          ["3938"%string; "3938"%string]
          [(emission_3938, background_3938); (emission_3938, background_3938)].
Proof. constructor; [exact wf_3938 |]. exact wf_tables_3938. Qed.

(** ** The coefficients are those of the plotted points *)

Lemma before_after_show (l r : list event) :
  Forall (fun e => e <> plt_show) l ->
  before_show (l ++ plt_show :: r) = l /\ after_show (l ++ plt_show :: r) = r.
Proof.
  induction 1 as [| e l He _ [IH1 IH2]]; [split; reflexivity |].
  destruct e; cbn [app before_show after_show]; try contradiction;
    rewrite ?IH1, ?IH2; split; reflexivity.
Qed.

Lemma plotted_app (a b : list event) : plotted (a ++ b) = plotted a ++ plotted b.
Proof.
  induction a as [| e a IH]; [reflexivity |].
  destruct e; cbn [app plotted]; rewrite IH; reflexivity.
Qed.

Lemma scatter1_calls_no_show (colours : option (list string)) (galaxies : list string)
    (tables : list (list array * list array)) (count : nat) :
  Forall (fun e => e <> plt_show) (scatter1_calls colours galaxies tables count).
Proof.
  revert tables count. induction galaxies as [| i rest IH]; intros [| t ts] count;
    cbn [scatter1_calls]; constructor; [discriminate | apply IH].
Qed.

Lemma scatter2_calls_no_show (colours : option (list string)) (galaxies : list string)
    (tables : list (list array * list array)) (count : nat) :
  Forall (fun e => e <> plt_show) (scatter2_calls colours galaxies tables count).
Proof.
  revert tables count. induction galaxies as [| i rest IH]; intros [| t ts] count;
    cbn [scatter2_calls]; constructor; [discriminate | apply IH].
Qed.

Lemma report_no_show (colours : option (list string)) (head : string) (a b : float64) :
  Forall (fun e => e <> plt_show) (report colours head a b)
  /\ plotted (report colours head a b) = [].
Proof.
  unfold report. destruct (truthy colours); split; try reflexivity;
    repeat constructor; discriminate.
Qed.

Lemma plotted_scatter1 (colours : option (list string)) (galaxies : list string)
    (tables : list (list array * list array)) (count : nat) :
  length galaxies = length tables ->
  plotted (scatter1_calls colours galaxies tables count)
  = map (fun t => (np_log10 (uv_flux t), np_log10 (ir_flux t))) tables.
Proof.
  revert tables count. induction galaxies as [| i rest IH]; intros [| t ts] count H;
    try discriminate; [reflexivity |].
  cbn [scatter1_calls plotted map]. f_equal. apply IH. simpl in H. lia.
Qed.

Lemma plotted_scatter2 (colours : option (list string)) (galaxies : list string)
    (tables : list (list array * list array)) (count : nat) :
  length galaxies = length tables ->
  plotted (scatter2_calls colours galaxies tables count)
  = map (fun t => (radius t, np_log10 (map2 fdiv (ir_flux t) (uv_flux t)))) tables.
Proof.
  revert tables count. induction galaxies as [| i rest IH]; intros [| t ts] count H;
    try discriminate; [reflexivity |].
  cbn [scatter2_calls plotted map]. f_equal. apply IH. simpl in H. lia.
Qed.

Lemma map2_app {A B C : Type} (f : A -> B -> C) (a a' : list A) (b b' : list B) :
  length a = length b -> map2 f (a ++ a') (b ++ b') = map2 f a b ++ map2 f a' b'.
Proof.
  revert b. induction a as [| x a IH]; intros [| y b] H; try discriminate; [reflexivity |].
  cbn [app map2]. f_equal. apply IH. simpl in H. lia.
Qed.

Lemma pooled_ratio (tables : list (list array * list array)) :
  concat (map (fun t => map2 fdiv (ir_flux t) (uv_flux t)) tables)
  = map2 fdiv (concat (map ir_flux tables)) (concat (map uv_flux tables)).
Proof.
  induction tables as [| t ts IH]; [reflexivity |].
  cbn [map concat]. rewrite IH, map2_app; [reflexivity |].
  destruct (flux_lengths t) as [-> ->]. reflexivity.
Qed.

Lemma np_log10_concat {T : Type} (f : T -> array) (l : list T) :
  concat (map (fun t => np_log10 (f t)) l) = np_log10 (concat (map f l)).
Proof.
  unfold np_log10. rewrite concat_map, map_map. reflexivity.
Qed.

Lemma xs_ys_of_map {T : Type} (f g : T -> array) (l : list T) :
  xs_of (map (fun t => (f t, g t)) l) = concat (map f l)
  /\ ys_of (map (fun t => (f t, g t)) l) = concat (map g l).
Proof. unfold xs_of, ys_of. rewrite !map_map. split; reflexivity. Qed.

(** * Non-finite values *)

(** ** A non-finite entry makes the coefficient non-finite *)

Lemma fold_fadd_nonfin (a : array) : fold_left fadd a NonFin = NonFin.
Proof. induction a as [| x a IH]; [reflexivity | exact IH]. Qed.

Lemma py_sum_nonfin_acc (a : array) (acc : float64) :
  In NonFin a -> fold_left fadd a acc = NonFin.
Proof.
  revert acc. induction a as [| x a IH]; intros acc []; cbn [fold_left].
  - subst x. destruct acc; apply fold_fadd_nonfin.
  - apply IH. assumption.
Qed.

Lemma py_sum_nonfin (a : array) : In NonFin a -> py_sum a = NonFin.
Proof. apply py_sum_nonfin_acc. Qed.

Lemma sq_dev_nonfin (a : array) :
  In NonFin a ->
  py_sum (np_square (np_sub_scalar a (fdiv (py_sum a) (Fin (INR (length a)))))) = NonFin.
Proof.
  intros H. rewrite (py_sum_nonfin a H). apply py_sum_nonfin.
  unfold np_square, np_sub_scalar. rewrite map_map.
  apply in_map_iff. exists NonFin. split; [reflexivity | exact H].
Qed.

Lemma corr_coeff_nonfin_l (xarr yarr : array) (v : float64) :
  In NonFin xarr -> corr_coeff xarr yarr = Ok v -> v = NonFin.
Proof.
  intros Hin. unfold corr_coeff.
  destruct (truediv_len_cases (py_sum xarr) (length xarr)) as [[_ ->] | [_ ->]];
    [discriminate |].
  destruct (truediv_len_cases (py_sum yarr) (length yarr)) as [[_ ->] | [_ ->]];
    [discriminate |].
  cbn [bind]. destruct (np_mul _ _); [| discriminate]. cbn [bind].
  intros H. injection H as <-.
  apply bottom_degenerate_l. right. apply sq_dev_nonfin. exact Hin.
Qed.

(** X18.  A non-finite entry (nan or inf) in either array makes the
    coefficient non-finite: whenever [corr_coeff] returns a value on such
    arrays, it returns a value that is not a finite number. *)
Theorem corr_coeff_nonfinite (xarr yarr : array) :
  In NonFin xarr \/ In NonFin yarr ->
  (exists v, corr_coeff xarr yarr = Ok v) ->
  corr_coeff xarr yarr = Ok NonFin.
Proof.
  intros [H | H] [v Hv]; rewrite Hv; f_equal.
  - exact (corr_coeff_nonfin_l xarr yarr v H Hv).
  - rewrite corr_coeff_swap in Hv. exact (corr_coeff_nonfin_l yarr xarr v H Hv).
Qed.

Lemma corr_coeff_nonfinite_witness :
  corr_coeff [Fin 1; NonFin; Fin 3] [Fin 2; Fin 4; Fin 7] = Ok NonFin.
Proof.
  apply (corr_coeff_nonfinite [Fin 1; NonFin; Fin 3] [Fin 2; Fin 4; Fin 7]).
  - left. right. left. reflexivity.
  - apply corr_coeff_same_length; [discriminate | reflexivity].
Defined.

(** ** A region that is not brighter than the background *)







(** ** A background of mean level zero *)






(** * The columns data leaves alone *)

Lemma nth_error_set_nth_neq {A : Type} (k k' : nat) (v : A) (l : list A) :
  k <> k' -> nth_error (set_nth k v l) k' = nth_error l k'.
Proof.
  revert k k'. induction l as [| a l IH]; intros [| k] [| k'] H; simpl;
    try reflexivity; try lia.
  apply IH. lia.
Qed.

Lemma col_map_other (g : array -> array) (rows : list array) (k : nat) :
  (forall row, nth_error (g row) k = nth_error row k) ->
  col (Arr2 (map g rows)) k = col (Arr2 rows) k.
Proof.
  intros Hg. cbn [col]. induction rows as [| row rows IH]; [reflexivity |].
  cbn [map mapM]. unfold getitem at 1 3. rewrite Hg, IH. reflexivity.
Qed.

(** X21.  The in-place updates of [data] touch columns 2 and 4 only: on
    well-formed tables every other column of the array at the end of the call
    (positions, pixel counts, radius, and any further column) reads exactly
    as it does in the file. *)
Theorem data_keeps_other_columns (fs : files) (galaxy : string) (rows srows : list array) :
  wf_tables fs galaxy rows srows ->
  exists l,
    data_body fs galaxy = Ok l
    /\ forall k, k <> 2%nat -> k <> 4%nat -> col (data_arr l) k = col (Arr2 rows) k.
Proof.
  intros Hwf. exists (reduction rows srows).
  split; [exact (data_body_wf fs galaxy rows srows Hwf) |].
  intros k H2 H4. cbn [data_arr reduction].
  rewrite !map_map. apply col_map_other. intros row.
  unfold cal_row, sub_row. rewrite !nth_error_set_nth_neq by lia. reflexivity.
Qed.

Lemma data_keeps_other_columns_witness :
  exists l,
    data_body files_3938 "3938" = Ok l
    /\ forall k, k <> 2%nat -> k <> 4%nat ->
                 col (data_arr l) k = col (Arr2 emission_3938) k.
Proof.
  apply (data_keeps_other_columns files_3938 "3938" emission_3938 background_3938).
  exact wf_3938.
Defined.

(** * Completed runs of plot *)

(** ** Runs with one-letter colours *)

(** X15.  On well-formed tables with at least one region overall, without
    colours or with one-letter matplotlib colours, at least as many as
    galaxies, [plot] completes without an exception.  Each figure gets one
    [plt.plot] call per galaxy, in list order, with that galaxy's own points,
    then the title, the axis labels, the legend (and the printed line when
    colours are given) and [plt.show]; without colours both legends carry the
    first coefficient. *)
Theorem plot_completes (fs : files) (galaxies : list string)
    (tables : list (list array * list array)) (colours : option (list string)) :
  Forall2 (fun g t => wf_tables fs g (fst t) (snd t)) galaxies tables ->
  concat (map radius tables) <> [] ->
  (truthy colours = true ->
   exists l, colours = Some l /\ (length galaxies <= length l)%nat
             /\ Forall base_colour l) ->
  exists c1 c2,
    plot_stats fs galaxies = Ok (title_of galaxies, c1, c2)
    /\ plot fs galaxies colours
       = (scatter1_calls colours galaxies tables 0
          ++ [plt_title (title_of galaxies); plt_xlabel "log(UV flux density)";
              plt_ylabel "log(IR flux density)"]
          ++ report colours "First graph: " c1 c1
          ++ [plt_show]
          ++ scatter2_calls colours galaxies tables 0
          ++ [plt_title (title_of galaxies); plt_xlabel "galactocentric radius (arcsec)";
              plt_ylabel "log(IR flux density/UV flux density)"]
          ++ report colours "Second graph: " c1 c2
          ++ [plt_show],
          Ok tt).
Proof.
  intros Hwf Hne Hc.
  assert (He : enough colours 0 (length galaxies)).
  { intros Ht. destruct (Hc Ht) as (l & -> & Hl & _). exists l. split; [reflexivity | exact Hl]. }
  destruct (plot_stats_Ok fs galaxies tables Hwf Hne) as (c1 & c2 & _ & _ & Hs).
  exists c1, c2. split; [exact Hs |].
  apply plot_run; [exact Hs | |].
  - apply scatter1_wf; [exact Hwf | exact He].
  - apply scatter2_wf; [exact Hwf | exact He].
Qed.

Lemma base_colour_r : Forall base_colour ["r"%string].
Proof. constructor; [| constructor]. unfold base_colour. simpl. tauto. Qed.

Lemma plot_completes_witness :
  exists c1 c2,
    plot_stats files_3938 ["3938"%string] = Ok (title_of ["3938"%string], c1, c2)
    /\ plot files_3938 ["3938"%string] (Some ["r"%string])
       = (scatter1_calls (Some ["r"%string]) ["3938"%string]
                         [(emission_3938, background_3938)] 0
          ++ [plt_title (title_of ["3938"%string]); plt_xlabel "log(UV flux density)";
              plt_ylabel "log(IR flux density)"]
          ++ report (Some ["r"%string]) "First graph: " c1 c1
          ++ [plt_show]
          ++ scatter2_calls (Some ["r"%string]) ["3938"%string]
                            [(emission_3938, background_3938)] 0
          ++ [plt_title (title_of ["3938"%string]);
              plt_xlabel "galactocentric radius (arcsec)";
              plt_ylabel "log(IR flux density/UV flux density)"]
          ++ report (Some ["r"%string]) "Second graph: " c1 c2
          ++ [plt_show],
          Ok tt).
Proof.
  apply (plot_completes files_3938 ["3938"%string] [(emission_3938, background_3938)]
           (Some ["r"%string]) wf_tables_3938 radius_3938_nonempty).
  intros _. exists ["r"%string].
  split; [reflexivity |]. split; [simpl; lia | exact base_colour_r].
Defined.

(** X16.  With a non-empty list of one-letter matplotlib colours shorter
    than the list of galaxies (tables well-formed, at least one region),
    [plot] draws the first figure's points for as many galaxies as there are
    colours and then raises IndexError at [colours[count]]: no title, legend
    or [plt.show] is reached and nothing is printed. *)
Theorem plot_too_few_colours (fs : files) (galaxies : list string)
    (tables : list (list array * list array)) (l : list string) :
  Forall2 (fun g t => wf_tables fs g (fst t) (snd t)) galaxies tables ->
  concat (map radius tables) <> [] ->
  l <> [] -> Forall base_colour l -> (length l < length galaxies)%nat ->
  plot fs galaxies (Some l)
  = (scatter1_calls (Some l) (firstn (length l) galaxies) (firstn (length l) tables) 0,
     Raise IndexError).
Proof.
  intros Hwf Hne Hl _ Hlt.
  destruct (plot_stats_Ok fs galaxies tables Hwf Hne) as (c1 & c2 & _ & _ & Hs).
  unfold plot. rewrite Hs. rewrite io_bind_lift_Ok.
  rewrite (scatter1_short fs l galaxies tables Hl Hwf 0) by lia.
  rewrite Nat.sub_0_r. reflexivity.
Qed.

Lemma plot_too_few_colours_witness :
  plot files_3938 ["3938"%string; "3938"%string] (Some ["r"%string])
  = (scatter1_calls (Some ["r"%string])
       (firstn 1 ["3938"%string; "3938"%string])
       (firstn 1 [(emission_3938, background_3938); (emission_3938, background_3938)]) 0,
     Raise IndexError).
Proof.
  apply (plot_too_few_colours files_3938 ["3938"%string; "3938"%string]
           [(emission_3938, background_3938); (emission_3938, background_3938)]
           ["r"%string] wf_tables_3938_twice).
  - discriminate.
  - discriminate.
  - exact base_colour_r.
  - simpl. lia.
Defined.

(** ** What a completed run implies *)

Lemma plot_Ok_inv (fs : files) (galaxies : list string) (colours : option (list string))
    (tr : list event) :
  plot fs galaxies colours = (tr, Ok tt) ->
  exists s tr1 tr2,
    plot_stats fs galaxies = Ok s
    /\ scatter1 fs colours galaxies 0 = (tr1, Ok tt)
    /\ scatter2 fs colours galaxies 0 = (tr2, Ok tt).
Proof.
  unfold plot.
  destruct (plot_stats fs galaxies) as [[[title c1] c2] | e]; [| discriminate].
  destruct (scatter1 fs colours galaxies 0) as [tr1 [[] | e1]];
    [| destruct (truthy colours); discriminate].
  destruct (scatter2 fs colours galaxies 0) as [tr2 [[] | e2]];
    [| destruct (truthy colours); discriminate].
  intros _. exists (title, c1, c2), tr1, tr2. repeat split.
Qed.

Lemma plot_stats_no_region (fs : files) (galaxies : list string)
    (tables : list (list array * list array)) :
  Forall2 (fun g t => wf_tables fs g (fst t) (snd t)) galaxies tables ->
  concat (map radius tables) = [] ->
  plot_stats fs galaxies = Raise ZeroDivisionError.
Proof.
  intros Hwf He. rewrite (plot_stats_wf fs galaxies tables Hwf).
  destruct (pooled_lengths tables) as [Lu _]. rewrite He in Lu.
  destruct (concat (map uv_flux tables)); [reflexivity | discriminate].
Qed.

Lemma completed_run_regions (fs : files) (galaxies : list string)
    (tables : list (list array * list array)) (colours : option (list string))
    (tr : list event) :
  Forall2 (fun g t => wf_tables fs g (fst t) (snd t)) galaxies tables ->
  plot fs galaxies colours = (tr, Ok tt) ->
  concat (map radius tables) <> [].
Proof.
  intros Hwf Hrun He.
  destruct (plot_Ok_inv fs galaxies colours tr Hrun) as (s & _ & _ & Hs & _).
  rewrite (plot_stats_no_region fs galaxies tables Hwf He) in Hs. discriminate.
Qed.

Lemma completed_run_colours (fs : files) (galaxies : list string)
    (tables : list (list array * list array)) (colours : option (list string))
    (tr : list event) :
  Forall2 (fun g t => wf_tables fs g (fst t) (snd t)) galaxies tables ->
  plot fs galaxies colours = (tr, Ok tt) ->
  enough colours 0 (length galaxies).
Proof.
  intros Hwf Hrun Ht.
  destruct (plot_Ok_inv fs galaxies colours tr Hrun) as (s & tr1 & _ & _ & H1 & _).
  destruct colours as [l |]; [| discriminate].
  exists l. split; [reflexivity |].
  destruct (le_lt_dec (length galaxies) (length l)) as [Hle | Hlt]; [exact Hle |].
  assert (Hl : l <> []) by (intros ->; discriminate).
  rewrite (scatter1_short fs l galaxies tables Hl Hwf 0) in H1 by lia.
  discriminate.
Qed.

(** X17.  When a run of [plot] on well-formed tables completes, each
    coefficient is the coefficient of exactly the points drawn in its figure:
    [corr_coeff] of all the x and all the y coordinates passed to [plt.plot]
    before the first [plt.show] is the first one, and of those between the
    two [plt.show] calls is the second one. *)
Theorem plot_points_are_statistics (fs : files) (galaxies : list string)
    (tables : list (list array * list array)) (colours : option (list string))
    (tr : list event) :
  Forall2 (fun g t => wf_tables fs g (fst t) (snd t)) galaxies tables ->
  plot fs galaxies colours = (tr, Ok tt) ->
  exists c1 c2,
    plot_stats fs galaxies = Ok (title_of galaxies, c1, c2)
    /\ corr_coeff (xs_of (plotted (before_show tr))) (ys_of (plotted (before_show tr)))
       = Ok c1
    /\ corr_coeff (xs_of (plotted (before_show (after_show tr))))
                  (ys_of (plotted (before_show (after_show tr))))
       = Ok c2.
Proof.
  intros Hwf Hdone.
  pose proof (completed_run_regions fs galaxies tables colours tr Hwf Hdone) as Hne.
  pose proof (completed_run_colours fs galaxies tables colours tr Hwf Hdone) as Hc.
  destruct (plot_stats_Ok fs galaxies tables Hwf Hne) as (c1 & c2 & H1 & H2 & Hs).
  pose proof (Forall2_length Hwf) as Hlen.
  pose proof (plot_run fs galaxies colours _ c1 c2 _ _ Hs
                (scatter1_wf fs colours galaxies tables Hwf 0 Hc)
                (scatter2_wf fs colours galaxies tables Hwf 0 Hc)) as Hrun.
  rewrite Hrun in Hdone. injection Hdone as <-.
  exists c1, c2. split; [exact Hs |].
  destruct (report_no_show colours "First graph: " c1 c1) as [N1 P1].
  destruct (report_no_show colours "Second graph: " c1 c2) as [N2 P2].
  set (fig1 := scatter1_calls colours galaxies tables 0
               ++ [plt_title (title_of galaxies); plt_xlabel "log(UV flux density)";
                   plt_ylabel "log(IR flux density)"]
               ++ report colours "First graph: " c1 c1).
  set (fig2 := scatter2_calls colours galaxies tables 0
               ++ [plt_title (title_of galaxies);
                   plt_xlabel "galactocentric radius (arcsec)";
                   plt_ylabel "log(IR flux density/UV flux density)"]
               ++ report colours "Second graph: " c1 c2).
  assert (F1 : Forall (fun e => e <> plt_show) fig1).
  { subst fig1. apply Forall_app. split; [apply scatter1_calls_no_show |].
    apply Forall_app. split; [repeat constructor; discriminate | exact N1]. }
  assert (F2 : Forall (fun e => e <> plt_show) fig2).
  { subst fig2. apply Forall_app. split; [apply scatter2_calls_no_show |].
    apply Forall_app. split; [repeat constructor; discriminate | exact N2]. }
  replace (scatter1_calls colours galaxies tables 0 ++ _)
    with (fig1 ++ plt_show :: fig2 ++ [plt_show])
    by (subst fig1 fig2; repeat rewrite <- app_assoc; reflexivity).
  destruct (before_after_show fig1 (fig2 ++ [plt_show]) F1) as [-> ->].
  destruct (before_after_show fig2 [] F2) as [-> _].
  subst fig1 fig2. rewrite !plotted_app, P1, P2.
  rewrite plotted_scatter1, plotted_scatter2 by exact Hlen.
  cbn [plotted]. rewrite !app_nil_r.
  destruct (xs_ys_of_map (fun t => np_log10 (uv_flux t)) (fun t => np_log10 (ir_flux t))
              tables) as [-> ->].
  destruct (xs_ys_of_map radius (fun t => np_log10 (map2 fdiv (ir_flux t) (uv_flux t)))
              tables) as [-> ->].
  rewrite !np_log10_concat, pooled_ratio. split; assumption.
Qed.

Lemma plot_points_are_statistics_witness :
  exists c1 c2,
    plot_stats files_3938 ["3938"%string] = Ok (title_of ["3938"%string], c1, c2)
    /\ corr_coeff (xs_of (plotted (before_show (fst (plot files_3938 ["3938"%string] None)))))
                  (ys_of (plotted (before_show (fst (plot files_3938 ["3938"%string] None)))))
       = Ok c1
    /\ corr_coeff
         (xs_of (plotted (before_show
                            (after_show (fst (plot files_3938 ["3938"%string] None))))))
         (ys_of (plotted (before_show
                            (after_show (fst (plot files_3938 ["3938"%string] None))))))
       = Ok c2.
Proof.
  apply (plot_points_are_statistics files_3938 ["3938"%string]
           [(emission_3938, background_3938)] None
           (fst (plot files_3938 ["3938"%string] None)) wf_tables_3938).
  pose proof plot_3938_plain as H. cbv zeta in H. rewrite H. reflexivity.
Defined.

(** * The coefficients a run reports *)

Lemma reported_app (a b : list event) : reported (a ++ b) = reported a ++ reported b.
Proof.
  induction a as [| e a IH]; [reflexivity |].
  destruct e as [x y f l | t | t | t | [[| [| [s |] [| [|v] [|]]] [|]] |] | | [| [s |] [| [s' |] [| [|v] [|]]]]];
    cbn [app reported]; rewrite IH; reflexivity.
Qed.

Lemma reported_scatter1_calls (colours : option (list string)) (galaxies : list string)
    (tables : list (list array * list array)) (count : nat) :
  reported (scatter1_calls colours galaxies tables count) = [].
Proof.
  revert tables count. induction galaxies as [| i rest IH]; intros [| t ts] count;
    try reflexivity.
  cbn [scatter1_calls reported]. apply IH.
Qed.

Lemma reported_scatter2_calls (colours : option (list string)) (galaxies : list string)
    (tables : list (list array * list array)) (count : nat) :
  reported (scatter2_calls colours galaxies tables count) = [].
Proof.
  revert tables count. induction galaxies as [| i rest IH]; intros [| t ts] count;
    try reflexivity.
  cbn [scatter2_calls reported]. apply IH.
Qed.

Lemma reported_report (colours : option (list string)) (head : string)
    (shown printed : float64) :
  reported (report colours head shown printed)
  = [if truthy colours then printed else shown].
Proof. unfold report. destruct (truthy colours); reflexivity. Qed.

(** The run on galaxy 3938 without colours reports the first coefficient
    twice; the second one, a different number, is not reported. *)
Lemma reported_3938_plain :
  plot_stats files_3938 ["3938"%string] = Ok ("NGC 3938  "%string, Fin 1, Fin (-1))
  /\ reported (fst (plot files_3938 ["3938"%string] None)) = [Fin 1; Fin 1]
  /\ Fin (-1) <> Fin 1.
Proof.
  split; [exact plot_stats_3938 |].
  pose proof plot_3938_plain as H. cbv zeta in H. rewrite H.
  split; [reflexivity |]. intros E. injection E as E. lra.
Qed.

(** C7.  In a completed run of [plot] on well-formed tables the two
    coefficients are computed over the data of all the listed galaxies,
    concatenated in list order: [c1] on log10(UV flux) against log10(IR flux)
    and [c2] on the galactocentric radius against log10(IR flux / UV flux).
    With colours the run reports [c1] and then [c2]; without colours it
    reports [c1] twice and [c2] not at all. *)
Theorem plot_reports_pooled_coefficients (fs : files) (galaxies : list string)
    (tables : list (list array * list array)) (colours : option (list string))
    (tr : list event) :
  Forall2 (fun g t => wf_tables fs g (fst t) (snd t)) galaxies tables ->
  plot fs galaxies colours = (tr, Ok tt) ->
  exists c1 c2,
    corr_coeff (np_log10 (concat (map uv_flux tables)))
               (np_log10 (concat (map ir_flux tables))) = Ok c1
    /\ corr_coeff (concat (map radius tables))
                  (np_log10 (map2 fdiv (concat (map ir_flux tables))
                                       (concat (map uv_flux tables)))) = Ok c2
    /\ reported tr = (if truthy colours then [c1; c2] else [c1; c1]).
Proof.
  intros Hwf Hdone.
  pose proof (completed_run_regions fs galaxies tables colours tr Hwf Hdone) as Hne.
  pose proof (completed_run_colours fs galaxies tables colours tr Hwf Hdone) as Hc.
  destruct (plot_stats_Ok fs galaxies tables Hwf Hne) as (c1 & c2 & H1 & H2 & Hs).
  pose proof (plot_run fs galaxies colours _ c1 c2 _ _ Hs
                (scatter1_wf fs colours galaxies tables Hwf 0 Hc)
                (scatter2_wf fs colours galaxies tables Hwf 0 Hc)) as Hrun.
  rewrite Hrun in Hdone. injection Hdone as <-.
  exists c1, c2. split; [exact H1 |]. split; [exact H2 |].
  rewrite reported_app, reported_scatter1_calls. cbn [app reported].
  rewrite reported_app, reported_report. cbn [reported].
  rewrite reported_app, reported_scatter2_calls. cbn [app reported].
  rewrite reported_app, reported_report. cbn [reported].
  destruct (truthy colours); reflexivity.
Qed.

Lemma plot_reports_pooled_coefficients_witness :
  exists c1 c2,
    corr_coeff (np_log10 (concat (map uv_flux [(emission_3938, background_3938)])))
               (np_log10 (concat (map ir_flux [(emission_3938, background_3938)]))) = Ok c1
    /\ corr_coeff (concat (map radius [(emission_3938, background_3938)]))
                  (np_log10 (map2 fdiv
                               (concat (map ir_flux [(emission_3938, background_3938)]))
                               (concat (map uv_flux [(emission_3938, background_3938)]))))
       = Ok c2
    /\ reported (fst (plot files_3938 ["3938"%string] None))
       = (if truthy None then [c1; c2] else [c1; c1]).
Proof.
  apply (plot_reports_pooled_coefficients files_3938 ["3938"%string]
           [(emission_3938, background_3938)] None
           (fst (plot files_3938 ["3938"%string] None)) wf_tables_3938).
  pose proof plot_3938_plain as H. cbv zeta in H. rewrite H. reflexivity.
Defined.

(** * corr_coeff in binary64 arithmetic *)










